(** * Discrepancy evaluator of [eogBackend/apis/discrepancyDectector.py]

    A shallow embedding of [check_discrepancy] and of the HTTP handler
    [detect_daily_discrepancy], followed by the properties the specification
    states about them.

    - Python values decoded from JSON are the inductive type [pyval].
    - Python floats are IEEE binary64 numbers: Rocq's primitive [float],
      with the same rounding Python and numpy use. The ticket sum is a
      [number]: an exact Python int or a binary64 float, as pandas gives
      it; it is converted to a float for arithmetic and compared with the
      drain volume as it is.
    - A call either returns or raises: the type [outcome].
    - What the program calls but does not define (Python's [float] on a
      string, [repr], and the pandas functions) is the interface [Runtime].
      Every general theorem holds for every implementation of it; the
      closed examples run on the implementation [reference].
    - A data frame is its column labels (strings, as JSON object keys are)
      and its rows; a cell a row lacks is NaN. *)

From Stdlib Require Import ZArith List String Ascii Bool Floats Lia.
Import ListNotations.

Set Warnings "-inexact-float,-register-all".
Local Open Scope string_scope.

(* ================================================================== *)
(** ** Python values *)

(** What [response.json()] and [request.get_json()] give back. A dict is its
    list of items in insertion order; its keys are distinct. *)
Inductive pyval : Type :=
| PyNone
| PyBool (b : bool)
| PyInt (z : Z)
| PyFloat (f : float)
| PyStr (s : string)
| PyList (l : list pyval)
| PyDict (d : list (string * pyval)).

Inductive exn : Type :=
| AttributeError
| TypeError
| ValueError
| OverflowError
| LibraryError.

(** A call returns a value or raises an exception nobody catches. *)
Inductive outcome (A : Type) : Type :=
| Return (a : A)
| Raise (e : exn).
Arguments Return {A} a.
Arguments Raise {A} e.

Definition bind {A B : Type} (m : outcome A) (k : A -> outcome B) : outcome B :=
  match m with
  | Return a => k a
  | Raise e => Raise e
  end.

Notation "x <- m ;; k" := (bind m (fun x => k))
  (at level 61, m at next level, right associativity).

(** A library call that signals failure by raising. *)
Definition or_raise {A : Type} (o : option A) : outcome A :=
  match o with
  | Some a => Return a
  | None => Raise LibraryError
  end.

(** [key in d] and [d[key]] of a dict, in one lookup. *)
Fixpoint lookup (key : string) (d : list (string * pyval)) : option pyval :=
  match d with
  | [] => None
  | (k, v) :: d' => if String.eqb k key then Some v else lookup key d'
  end.

(** Python's truth value of an object: [None], [False], zero, and the empty
    string, list and dict are false. *)
Definition truthy (v : pyval) : bool :=
  match v with
  | PyNone => false
  | PyBool b => b
  | PyInt z => negb (z =? 0)%Z
  | PyFloat f => negb (f =? 0)%float
  | PyStr s => negb (s =? "")
  | PyList l => match l with [] => false | _ => true end
  | PyDict d => match d with [] => false | _ => true end
  end.

Definition is_None (v : pyval) : bool :=
  match v with
  | PyNone => true
  | _ => false
  end.

(** [obj.get(key, default)]: only a dict has the method. *)
Definition get (obj : pyval) (key : string) (default : pyval) : outcome pyval :=
  match obj with
  | PyDict d =>
      Return (match lookup key d with Some v => v | None => default end)
  | _ => Raise AttributeError
  end.

(** An integer as the nearest binary64 number (ties to even). *)
Definition float_of_Z (z : Z) : float :=
  SF2Prim (binary_normalize prec emax z 0 false).

(** Python's [max(a, b)]: the second argument wins only when it is greater. *)
Definition py_max (a b : float) : float :=
  if (a <? b)%float then b else a.

(* ================================================================== *)
(** ** Calendar dates *)

(** What [pd.to_datetime(...).date()] yields: a calendar date, or [NaT]. *)
Inductive pdate : Type :=
| NaT
| Date (year month day : nat).

(** [==] on dates; [NaT] equals nothing. *)
Definition date_eqb (a b : pdate) : bool :=
  match a, b with
  | Date y m d, Date y' m' d' => Nat.eqb y y' && Nat.eqb m m' && Nat.eqb d d'
  | _, _ => false
  end.

Definition digit (n : nat) : ascii := ascii_of_nat (48 + n mod 10).

Definition pad2 (n : nat) : string :=
  String (digit (n / 10)) (String (digit n) "").

Definition pad4 (n : nat) : string :=
  String (digit (n / 1000)) (String (digit (n / 100)) (pad2 n)).

(** [str(date_obj)]: ISO form. *)
Definition str_date (d : pdate) : string :=
  match d with
  | NaT => "NaT"
  | Date y m d => pad4 y ++ "-" ++ pad2 m ++ "-" ++ pad2 d
  end.

(* ================================================================== *)
(** ** Data frames *)

(** A frame: its column labels and its rows. A row maps labels to cells; a
    label the row lacks reads as NaN, as pandas fills it. *)
Record DataFrame : Type := mkDataFrame {
  columns : list string;
  rows : list (list (string * pyval))
}.

Definition cell (row : list (string * pyval)) (label : string) : pyval :=
  match lookup label row with
  | Some v => v
  | None => PyFloat nan
  end.

(** [df[label]]: one column. *)
Definition series (df : DataFrame) (label : string) : list pyval :=
  map (fun row => cell row label) (rows df).

(** [df.empty]: some axis has length zero. *)
Definition empty (df : DataFrame) : bool :=
  match rows df, columns df with
  | [], _ => true
  | _, [] => true
  | _, _ => false
  end.

(** [df.shape[0]] *)
Definition shape0 (df : DataFrame) : nat := List.length (rows df).

(** [set(names).issubset(labels)] *)
Definition issubset (names labels : list string) : bool :=
  forallb (fun n => existsb (String.eqb n) labels) names.

(** [a & b] on boolean columns. *)
Fixpoint mask_and (a b : list bool) : list bool :=
  match a, b with
  | x :: a', y :: b' => (x && y) :: mask_and a' b'
  | _, _ => []
  end.

(** [xs[mask]]: the entries whose mask bit is set. *)
Fixpoint boolean_index {A : Type} (xs : list A) (mask : list bool) : list A :=
  match xs, mask with
  | x :: xs', b :: mask' =>
      if b then x :: boolean_index xs' mask' else boolean_index xs' mask'
  | _, _ => []
  end.

(* ================================================================== *)
(** ** Numbers *)

(** The sum of a column, when it is a number. [ExactInt] is a Python int
    (the sum of an object column, as for amounts beyond 64 bits): Python
    converts it to a float for arithmetic and compares it with a float
    exactly. [Float64] is a binary64 number; a numpy integer, where numpy
    converts it to float64 both for arithmetic and for the comparison with
    a Python float, is given by that value. *)
Inductive number : Type :=
| ExactInt (z : Z)
| Float64 (f : float).

(** [float(n)], which is also how [n] enters [n - drain_volume]: an
    integer beyond the float range raises [OverflowError]. *)
Definition number_float (n : number) : outcome float :=
  match n with
  | ExactInt z =>
      let f := float_of_Z z in
      if is_infinity f then Raise OverflowError else Return f
  | Float64 f => Return f
  end.

(** [z > x] for a Python int and a float: the exact comparison of the
    integer with the value of the float. *)
Definition Z_gt_float (z : Z) (x : float) : bool :=
  match Prim2SF x with
  | S754_nan => false
  | S754_infinity s => s
  | S754_zero _ => (0 <? z)%Z
  | S754_finite s m e =>
      if (0 <=? e)%Z
      then (cond_Zopp s (Z.pos m) * 2 ^ e <? z)%Z
      else (cond_Zopp s (Z.pos m) <? z * 2 ^ (- e))%Z
  end.

(** [n > x] as line 89 evaluates it on the sum. *)
Definition exceeds (n : number) (x : float) : bool :=
  match n with
  | ExactInt z => Z_gt_float z x
  | Float64 f => (x <? f)%float
  end.

(** The number is not negative. *)
Definition number_nonneg (n : number) : bool :=
  match n with
  | ExactInt z => (0 <=? z)%Z
  | Float64 f => (0 <=? f)%float
  end.

(* ================================================================== *)
(** ** The interface to Python's builtins and to pandas *)

(** The functions the source calls and does not define. [None] (or [inl])
    stands for the call raising. *)
Class Runtime : Type := {
  (** [float(s)] on a string; [None] is [ValueError]. *)
  float_of_str : string -> option float;
  (** [repr(s)] on a string, as a list's [str] shows its items. *)
  repr_str : string -> string;
  (** [pd.json_normalize(obj)]; [inl msg] when it raises with [str(e) = msg]. *)
  json_normalize : pyval -> string + DataFrame;
  (** [pd.to_datetime(column).dt.date] *)
  to_datetime_column : list pyval -> option (list pdate);
  (** [pd.to_datetime(value).date()] *)
  to_datetime : pyval -> option pdate;
  (** [column == value], elementwise *)
  column_eq : list pyval -> pyval -> option (list bool);
  (** [column.sum()]: the number it gives; [None] when the sum raises or
      is no number (line 84 then raises). *)
  column_sum : list pyval -> option number
}.

(* ================================================================== *)
(** ** Results and errors *)

Inductive Status : Type :=
| OK
| OVER_REPORTED
| UNDER_REPORTED
| MISSING_TICKET.

(** The dict [check_discrepancy] returns on success. [num_tickets] is [None]
    where the dict has no such key. *)
Record ReconciliationResult : Type := mkResult {
  cauldron_id : pyval;
  date : string;
  drain_volume : float;
  total_ticket_volume : float;
  difference : float;
  relative_diff : float;
  status : Status;
  num_tickets : option nat
}.

(** The failures [check_discrepancy] reports as [{"error": ...}]. *)
Inductive EvaluationError : Type :=
| FetchFailed (cause : string)
| UnexpectedResponseFormat
| ParseFailed (cause : string)
| EmptyDataset
| MissingColumns (present : list string).

Inductive payload : Type :=
| Error (e : EvaluationError)
| Result (r : ReconciliationResult).

(** What [requests.get(TICKETS_API, timeout=10)], [raise_for_status()] and
    [response.json()] come to: the decoded body, or an exception whose
    [str] is [msg]. *)
Inductive upstream : Type :=
| Fetched (data : pyval)
| FetchRaised (msg : string).

(* ================================================================== *)
(** ** [check_discrepancy] *)

Section Evaluator.

Context {L : Runtime}.

(** Lines 23-46: fetch, then find the ticket list in the decoded body. A
    dict gives its ["tickets"] member, else its ["data"] member, else its
    first list-valued member, else the empty list; a list is taken as it
    is; anything else is the unexpected format. *)
Fixpoint first_list_value (d : list (string * pyval)) : pyval :=
  match d with
  | [] => PyList []
  | (_, PyList l) :: _ => PyList l
  | _ :: d' => first_list_value d'
  end.

Definition all_tickets_of (data : pyval) : option pyval :=
  match data with
  | PyDict d =>
      match lookup "tickets" d with
      | Some v => Some v
      | None =>
          match lookup "data" d with
          | Some v => Some v
          | None => Some (first_list_value d)
          end
      end
  | PyList _ => Some data
  | _ => None
  end.

(** [isinstance(data, dict) or isinstance(data, list)] *)
Definition is_dict_or_list (data : pyval) : bool :=
  match data with
  | PyDict _ | PyList _ => true
  | _ => false
  end.

(** Some member of the dict is a list. *)
Definition has_list_value (d : list (string * pyval)) : bool :=
  existsb (fun kv => match snd kv with PyList _ => true | _ => false end) d.

Definition fetch_tickets (u : upstream) : EvaluationError + pyval :=
  match u with
  | FetchRaised msg => inl (FetchFailed msg)
  | Fetched data =>
      match all_tickets_of data with
      | Some all_tickets => inr all_tickets
      | None => inl UnexpectedResponseFormat
      end
  end.

Definition expected_cols : list string :=
  ["cauldron_id"; "date"; "amount_collected"].

(** Lines 49-62: build the frame, refuse an empty one, check the columns. *)
Definition tickets_frame (all_tickets : pyval) : EvaluationError + DataFrame :=
  match json_normalize all_tickets with
  | inl msg => inl (ParseFailed msg)
  | inr tickets_df =>
      if empty tickets_df then inl EmptyDataset
      else if negb (issubset expected_cols (columns tickets_df))
      then inl (MissingColumns (columns tickets_df))
      else inr tickets_df
  end.

(** Lines 65-69: normalise the dates and keep the rows of this cauldron and
    this date. Nothing here is inside a [try]. *)
Definition filter_tickets (tickets_df : DataFrame) (cauldron_id date : pyval)
  : outcome (pdate * DataFrame) :=
  dates <- or_raise (to_datetime_column (series tickets_df "date")) ;;
  date_obj <- or_raise (to_datetime date) ;;
  id_mask <- or_raise (column_eq (series tickets_df "cauldron_id") cauldron_id) ;;
  let date_mask := map (fun d => date_eqb d date_obj) dates in
  let cauldron_tickets :=
    mkDataFrame (columns tickets_df)
      (boolean_index (rows tickets_df) (mask_and id_mask date_mask)) in
  Return (date_obj, cauldron_tickets).

(** Lines 87-92. *)
Definition classify_status (total_ticket_volume : number)
    (drain_volume diff rel_diff tolerance threshold : float) : Status :=
  if (rel_diff <=? tolerance)%float || (diff <=? threshold)%float then OK
  else if exceeds total_ticket_volume drain_volume then OVER_REPORTED
  else UNDER_REPORTED.

(** Lines 71-103: the missing-ticket result, or the comparison. The sum
    is converted to a float for the subtraction of line 84 and for the
    result (line 98); line 89 compares the sum itself. *)
Definition compare_volumes (cauldron_id : pyval) (date_obj : pdate)
    (drain_volume tolerance threshold : float) (cauldron_tickets : DataFrame)
  : outcome payload :=
  if empty cauldron_tickets then
    Return (Result
      {| cauldron_id := cauldron_id;
         date := str_date date_obj;
         drain_volume := drain_volume;
         total_ticket_volume := 0%float;
         status := MISSING_TICKET;
         difference := drain_volume;
         relative_diff := 1%float;
         num_tickets := None |})
  else
    total_ticket_volume <-
      or_raise (column_sum (series cauldron_tickets "amount_collected")) ;;
    total <- number_float total_ticket_volume ;;
    let diff := abs (total - drain_volume)%float in
    let rel_diff := (diff / py_max drain_volume 1e-6)%float in
    Return (Result
      {| cauldron_id := cauldron_id;
         date := str_date date_obj;
         drain_volume := drain_volume;
         total_ticket_volume := total;
         difference := diff;
         relative_diff := rel_diff;
         status := classify_status total_ticket_volume drain_volume diff
                     rel_diff tolerance threshold;
         num_tickets := Some (shape0 cauldron_tickets) |}).

Definition check_discrepancy (u : upstream) (cauldron_id date : pyval)
    (drain_volume tolerance threshold : float) : outcome payload :=
  match fetch_tickets u with
  | inl e => Return (Error e)
  | inr all_tickets =>
      match tickets_frame all_tickets with
      | inl e => Return (Error e)
      | inr tickets_df =>
          found <- filter_tickets tickets_df cauldron_id date ;;
          compare_volumes cauldron_id (fst found) drain_volume tolerance
            threshold (snd found)
      end
  end.

(** The text of an error, as the source builds it. *)
Definition str_list (labels : list string) : string :=
  "[" ++ String.concat ", " (map repr_str labels) ++ "]".

Definition error_message (e : EvaluationError) : string :=
  match e with
  | FetchFailed cause => "Failed to fetch tickets API: " ++ cause
  | UnexpectedResponseFormat => "Unexpected API response format."
  | ParseFailed cause => "Error parsing tickets JSON: " ++ cause
  | EmptyDataset => "No ticket data found in response."
  | MissingColumns present =>
      "Missing expected columns in ticket data: " ++ str_list present
  end.

(* ================================================================== *)
(** ** The HTTP handler [detect_daily_discrepancy] *)

(** The JSON body Flask sends. *)
Inductive response_body : Type :=
| ErrorJson (message : string)
| ResultJson (r : ReconciliationResult).

Definition jsonify (p : payload) : response_body :=
  match p with
  | Error e => ErrorJson (error_message e)
  | Result r => ResultJson r
  end.

(** [float(x)] *)
Definition py_float (x : pyval) : outcome float :=
  match x with
  | PyFloat f => Return f
  | PyInt z =>
      let f := float_of_Z z in
      if is_infinity f then Raise OverflowError else Return f
  | PyBool b => Return (if b then 1%float else 0%float)
  | PyStr s =>
      match float_of_str s with
      | Some f => Return f
      | None => Raise ValueError
      end
  | PyNone | PyList _ | PyDict _ => Raise TypeError
  end.

(** [float(data.get(key, default))] *)
Definition float_get (data : pyval) (key : string) (default : float)
  : outcome float :=
  x <- get data key (PyFloat default) ;;
  py_float x.

(** Lines 125-138: the checks that answer 400. [inl message] is the
    rejection; [inr] carries [data], [cauldron_id], [date], [drain_volume]. *)
Definition validate (body : option pyval)
  : outcome (string + (pyval * pyval * pyval * pyval)) :=
  match body with
  | None | Some PyNone => Return (inl "Invalid or missing JSON body")
  | Some data =>
      cauldron_data <- get data "cauldron_data" (PyDict []) ;;
      if negb (truthy cauldron_data)
      then Return (inl "Missing 'cauldron_data' field")
      else
        cauldron_id <- get cauldron_data "cauldron_id" PyNone ;;
        date <- get cauldron_data "date_time" PyNone ;;
        drain_volume <- get cauldron_data "drain_volume" PyNone ;;
        if negb (truthy cauldron_id && truthy date
                 && negb (is_None drain_volume))
        then Return (inl "Missing required cauldron fields")
        else Return (inr (data, cauldron_id, date, drain_volume))
  end.

(** [body] is what [request.get_json(silent=True)] returns, [u] what the
    ticket source answers. A [Raise] leaves the handler uncaught. *)
Definition detect_daily_discrepancy (body : option pyval) (u : upstream)
  : outcome (response_body * Z) :=
  checked <- validate body ;;
  match checked with
  | inl message => Return (ErrorJson message, 400%Z)
  | inr (data, cauldron_id, date, drain_volume) =>
      tolerance <- float_get data "tolerance" 0.05 ;;
      threshold <- float_get data "threshold" 5.0 ;;
      drain <- py_float drain_volume ;;
      result <- check_discrepancy u cauldron_id date drain tolerance threshold ;;
      Return (jsonify result, 200%Z)
  end.

End Evaluator.

(* ================================================================== *)
(** ** A reference runtime

    The behaviour of Python and pandas on the ticket feed as the handler's
    docstring and the specification describe it: a list of flat JSON
    objects, ISO calendar dates ["YYYY-MM-DD"], string identifiers and
    integer amounts. Each function is exact on that fragment and raises
    outside it; the closed examples below stay inside it. *)

Module Reference.

Definition digit_value (c : ascii) : option nat :=
  let n := nat_of_ascii c in
  if (48 <=? n)%nat && (n <=? 57)%nat then Some (n - 48)%nat else None.

Fixpoint digits_value (acc : Z) (cs : list ascii) : option Z :=
  match cs with
  | [] => Some acc
  | c :: cs' =>
      match digit_value c with
      | Some n => digits_value (10 * acc + Z.of_nat n) cs'
      | None => None
      end
  end.

(** [float(s)] where [s] is a run of ASCII digits; [ValueError] otherwise. *)
Definition float_of_str (s : string) : option float :=
  match list_ascii_of_string s with
  | [] => None
  | cs => option_map float_of_Z (digits_value 0 cs)
  end.

(** [repr(s)] of a string of printable characters with no quote and no
    backslash. *)
Definition repr_str (s : string) : string := "'" ++ s ++ "'".

Definition flat_record (v : pyval) : option (list (string * pyval)) :=
  match v with
  | PyDict d =>
      if forallb (fun kv => match snd kv with PyDict _ => false | _ => true end) d
      then Some d
      else None
  | _ => None
  end.

Fixpoint flat_records (l : list pyval) : option (list (list (string * pyval))) :=
  match l with
  | [] => Some []
  | v :: l' =>
      match flat_record v, flat_records l' with
      | Some d, Some ds => Some (d :: ds)
      | _, _ => None
      end
  end.

(** The labels of a frame built from records: keys in order of first
    appearance. *)
Fixpoint add_labels (labels : list string) (row : list (string * pyval))
  : list string :=
  match row with
  | [] => labels
  | (k, _) :: row' =>
      add_labels
        (if existsb (String.eqb k) labels then labels else labels ++ [k]) row'
  end.

Definition frame_of (records : list (list (string * pyval))) : DataFrame :=
  mkDataFrame (fold_left add_labels records []) records.

(** [pd.json_normalize]: the empty list gives the empty frame, a dict is a
    list of one record, a scalar or a string raises [NotImplementedError]
    (whose [str] is empty). *)
Definition json_normalize (obj : pyval) : string + DataFrame :=
  match obj with
  | PyList [] => inr (mkDataFrame [] [])
  | PyList l =>
      match flat_records l with
      | Some records => inr (frame_of records)
      | None => inl "outside the reference fragment"
      end
  | PyDict d =>
      match flat_record obj with
      | Some record => inr (frame_of [record])
      | None => inl "outside the reference fragment"
      end
  | _ => inl ""
  end.

Definition leap (y : nat) : bool :=
  ((y mod 4 =? 0) && negb (y mod 100 =? 0) || (y mod 400 =? 0))%nat.

Definition days_in_month (y m : nat) : nat :=
  match m with
  | 2 => if leap y then 29 else 28
  | 4 | 6 | 9 | 11 => 30
  | _ => 31
  end.

Definition number2 (a b : ascii) : option nat :=
  match digit_value a, digit_value b with
  | Some x, Some y => Some (10 * x + y)
  | _, _ => None
  end.

(** ["YYYY-MM-DD"] with a real day of a year pandas can hold in
    nanoseconds. *)
Definition parse_iso_date (s : string) : option pdate :=
  match list_ascii_of_string s with
  | [y1; y2; y3; y4; h1; m1; m2; h2; d1; d2] =>
      match number2 y1 y2, number2 y3 y4, number2 m1 m2, number2 d1 d2 with
      | Some yh, Some yl, Some m, Some d =>
          let y := 100 * yh + yl in
          if (Ascii.eqb h1 "-" && Ascii.eqb h2 "-"
              && (1678 <=? y)%nat && (y <=? 2261)%nat
              && (1 <=? m)%nat && (m <=? 12)%nat
              && (1 <=? d)%nat && (d <=? days_in_month y m)%nat)%bool
          then Some (Date y m d)
          else None
      | _, _, _, _ => None
      end
  | _ => None
  end.

Definition to_datetime (v : pyval) : option pdate :=
  match v with
  | PyStr s => parse_iso_date s
  | _ => None
  end.

(** In a column a missing value ([None] or NaN) becomes [NaT]. *)
Definition to_datetime_cell (v : pyval) : option pdate :=
  match v with
  | PyStr s => parse_iso_date s
  | PyNone => Some NaT
  | PyFloat f => if is_nan f then Some NaT else None
  | _ => None
  end.

Fixpoint to_datetime_column (col : list pyval) : option (list pdate) :=
  match col with
  | [] => Some []
  | v :: col' =>
      match to_datetime_cell v, to_datetime_column col' with
      | Some d, Some ds => Some (d :: ds)
      | _, _ => None
      end
  end.

(** A column against a string: a cell matches when it is that string. *)
Definition column_eq (col : list pyval) (value : pyval) : option (list bool) :=
  match value with
  | PyStr s =>
      Some (map (fun c => match c with PyStr s' => String.eqb s' s | _ => false end) col)
  | _ => None
  end.

Fixpoint int_cells (col : list pyval) : option (list Z) :=
  match col with
  | [] => Some []
  | PyInt z :: col' => option_map (cons z) (int_cells col')
  | _ :: _ => None
  end.

(** The sum of integer cells. When they are small enough that every
    partial sum, in any order and in either dtype, is exact in binary64,
    the sum is that float. When a cell is beyond 64 bits the column holds
    Python ints and the sum is the exact integer. *)
Definition column_sum (col : list pyval) : option number :=
  match int_cells col with
  | Some zs =>
      if (fold_right Z.add 0 (map Z.abs zs) <=? 2 ^ 53)%Z
      then Some (Float64 (float_of_Z (fold_right Z.add 0 zs)%Z))
      else if existsb (fun z => 2 ^ 64 <=? Z.abs z)%Z zs
      then Some (ExactInt (fold_right Z.add 0 zs)%Z)
      else None
  | None => None
  end.

End Reference.

Definition reference : Runtime := {|
  float_of_str := Reference.float_of_str;
  repr_str := Reference.repr_str;
  json_normalize := Reference.json_normalize;
  to_datetime_column := Reference.to_datetime_column;
  to_datetime := Reference.to_datetime;
  column_eq := Reference.column_eq;
  column_sum := Reference.column_sum
|}.

(** The tickets of the specification's worked example. *)
Definition ticket (id day : string) (amount : Z) : list (string * pyval) :=
  [("cauldron_id", PyStr id); ("date", PyStr day);
   ("amount_collected", PyInt amount)].

Definition example_records : list (list (string * pyval)) :=
  [ticket "c1" "2025-11-01" 60; ticket "c1" "2025-11-01" 42].

Definition example_tickets : list pyval := map PyDict example_records.

Definition example_frame : DataFrame :=
  mkDataFrame ["cauldron_id"; "date"; "amount_collected"] example_records.

(** The result the specification gives for the request
    (c1, 2025-11-01, 100, 0.05, 5.0). *)
Definition example_result : ReconciliationResult :=
  {| cauldron_id := PyStr "c1";
     date := "2025-11-01";
     drain_volume := 100;
     total_ticket_volume := 102;
     difference := 2;
     relative_diff := 0.02;
     status := OK;
     num_tickets := Some 2%nat |}.

(** The result for a request no ticket matches. *)
Definition missing_result (cid : pyval) (day : string) (drain : float)
  : ReconciliationResult :=
  {| cauldron_id := cid;
     date := day;
     drain_volume := drain;
     total_ticket_volume := 0;
     difference := drain;
     relative_diff := 1;
     status := MISSING_TICKET;
     num_tickets := None |}.

(** The evaluation of the example tickets on the reference runtime, for a
    cauldron and a drain volume, on 2025-11-01 with the default tolerance
    and threshold. *)
Definition evaluate_example (cid : string) (drain : float) : outcome payload :=
  check_discrepancy (L := reference) (Fetched (PyList example_tickets))
    (PyStr cid) (PyStr "2025-11-01") drain 0.05 5.0.

(** Request bodies. *)
Definition cauldron_data_of (drain_volume : pyval) : pyval :=
  PyDict [("cauldron_id", PyStr "c1"); ("date_time", PyStr "2025-11-01");
          ("drain_volume", drain_volume)].

Definition body_text_tolerance : pyval :=
  PyDict [("tolerance", PyStr "abc");
          ("cauldron_data", cauldron_data_of (PyInt 100))].

Definition body_text_drain : pyval :=
  PyDict [("cauldron_data", cauldron_data_of (PyStr "n/a"))].

Definition body_plain : pyval :=
  PyDict [("cauldron_data", cauldron_data_of (PyInt 100))].

Definition body_zero_drain : pyval :=
  PyDict [("cauldron_data", cauldron_data_of (PyInt 0))].

Definition body_no_drain : pyval :=
  PyDict [("cauldron_data",
           PyDict [("cauldron_id", PyStr "c1");
                   ("date_time", PyStr "2025-11-01")])].

(** [isinstance(v, dict)] *)
Definition is_dict (v : pyval) : bool :=
  match v with
  | PyDict _ => true
  | _ => false
  end.

(** More request bodies: a JSON list, a cauldron id of zero, an empty
    object, and a date no parser reads. *)
Definition body_list : pyval := PyList [PyInt 1].

Definition body_zero_id : pyval :=
  PyDict [("cauldron_data",
           PyDict [("cauldron_id", PyInt 0);
                   ("date_time", PyStr "2025-11-01");
                   ("drain_volume", PyInt 100)])].

Definition body_empty : pyval := PyDict [].

Definition body_bad_date : pyval :=
  PyDict [("cauldron_data",
           PyDict [("cauldron_id", PyStr "c1");
                   ("date_time", PyStr "yesterday");
                   ("drain_volume", PyInt 100)])].

(** Two failures are of the same kind. *)
Definition same_kind (e e' : EvaluationError) : bool :=
  match e, e' with
  | FetchFailed _, FetchFailed _ => true
  | UnexpectedResponseFormat, UnexpectedResponseFormat => true
  | ParseFailed _, ParseFailed _ => true
  | EmptyDataset, EmptyDataset => true
  | MissingColumns _, MissingColumns _ => true
  | _, _ => false
  end.

(** Signs of specification floats: not below zero (or no number), and
    above zero (or no number). *)
Definition SFnonneg (a : spec_float) : bool :=
  match a with
  | S754_zero _ | S754_nan => true
  | S754_infinity s | S754_finite s _ _ => negb s
  end.

Definition SFpos (a : spec_float) : bool :=
  match a with
  | S754_nan => true
  | S754_zero _ => false
  | S754_infinity s | S754_finite s _ _ => negb s
  end.

(** A result for the two example tickets of cauldron c1. *)
Definition example_match (drain diff rel : float) (st : Status)
  : ReconciliationResult :=
  {| cauldron_id := PyStr "c1";
     date := "2025-11-01";
     drain_volume := drain;
     total_ticket_volume := 102;
     difference := diff;
     relative_diff := rel;
     status := st;
     num_tickets := Some 2%nat |}.

(* ================================================================== *)
(** * Properties *)

(** ** Lists, masks and column checks *)

Lemma issubset_spec (names labels : list string) :
  issubset names labels = true <-> forall n, In n names -> In n labels.
Proof.
  unfold issubset. rewrite forallb_forall.
  split; intros H n Hn.
  - apply H in Hn. apply existsb_exists in Hn.
    destruct Hn as [l [Hl Heq]]. apply String.eqb_eq in Heq. now subst.
  - apply existsb_exists. exists n. split; [now apply H|apply String.eqb_refl].
Qed.

Lemma issubset_false (names labels : list string) :
  issubset names labels = false <->
  exists n, In n names /\ ~ In n labels.
Proof.
  split.
  - intros H. induction names as [|n names IH]; [discriminate|].
    simpl in H. apply andb_false_iff in H. destruct H as [H|H].
    + exists n. split; [now left|]. intros Hin.
      assert (existsb (String.eqb n) labels = true) as E.
      { apply existsb_exists. exists n. split; [exact Hin|apply String.eqb_refl]. }
      congruence.
    + destruct (IH H) as [m [Hm Hnot]]. exists m. split; [now right|exact Hnot].
  - intros [n [Hn Hnot]]. destruct (issubset names labels) eqn:E; [|reflexivity].
    exfalso. apply Hnot. now apply (proj1 (issubset_spec names labels) E).
Qed.

(** No row survives a mask that is nowhere set. *)
Lemma boolean_index_unset {A : Type} (xs : list A) (mask : list bool) :
  (forall i, nth i mask false = false) -> boolean_index xs mask = [].
Proof.
  revert mask. induction xs as [|x xs IH]; intros mask H; [now destruct mask|].
  destruct mask as [|b mask]; [reflexivity|].
  simpl. pose proof (H 0%nat) as H0. simpl in H0. subst b.
  apply IH. intros i. exact (H (S i)).
Qed.

Lemma nth_mask_and (a b : list bool) (i : nat) :
  nth i (mask_and a b) false = nth i a false && nth i b false.
Proof.
  revert b i. induction a as [|x a IH]; intros b i.
  - simpl. now destruct i.
  - destruct b as [|y b].
    + simpl. destruct i; [now rewrite andb_false_r|].
      simpl. now rewrite andb_false_r.
    + destruct i; simpl; [reflexivity|apply IH].
Qed.

Lemma nth_date_mask (dates : list pdate) (date_obj : pdate) (i : nat) :
  nth i (map (fun d => date_eqb d date_obj) dates) false
  = date_eqb (nth i dates NaT) date_obj.
Proof.
  revert i. induction dates as [|d dates IH]; intros i.
  - now destruct i.
  - destruct i; simpl; [reflexivity|apply IH].
Qed.

(** ** Binary64 arithmetic *)

(** For a drain volume that is not negative, [abs(0.0 - x)] is [x] again
    (as Python's [==] compares: the two zeros are equal). *)
Lemma abs_zero_sub (x : float) :
  (0 <=? x)%float = true -> (x =? abs (0 - x))%float = true.
Proof.
  rewrite leb_spec, eqb_spec, abs_spec, sub_spec.
  change (Prim2SF 0) with (S754_zero false).
  destruct (Prim2SF x) as [s|s| |s m e]; simpl; try discriminate;
    destruct s; try discriminate; intros _; try reflexivity.
  unfold SFeqb, SFcompare. rewrite Z.compare_refl.
  now rewrite Pos.compare_cont_refl.
Qed.

(** A finite float divided by itself is 1.0: the quotient of the
    mantissas is exact. *)
Lemma SFdiv_same (s : bool) (m : positive) (e : Z) :
  SFdiv prec emax (S754_finite s m e) (S754_finite s m e) = Prim2SF 1.
Proof.
  unfold SFdiv, SFdiv_core_binary.
  replace (Zdigits2 (Z.pos m) + e - (Zdigits2 (Z.pos m) + e))%Z with 0%Z by lia.
  replace (e - e)%Z with 0%Z by lia.
  change (IntDef.Z.min (fexp prec emax 0) 0) with (-53)%Z.
  change (0 - -53)%Z with 53%Z. cbv iota.
  change (IntDef.Z.shiftl (Z.pos m) 53) with (Z.shiftl (Z.pos m) 53).
  rewrite Z.shiftl_mul_pow2 by lia.
  change (IntDef.Z.div_eucl (Z.pos m * 2 ^ 53) (Z.pos m))
    with (Z.div_eucl (Z.pos m * 2 ^ 53) (Z.pos m)).
  rewrite (surjective_pairing (Z.div_eucl (Z.pos m * 2 ^ 53) (Z.pos m))).
  change (fst (Z.div_eucl (Z.pos m * 2 ^ 53) (Z.pos m)))
    with ((Z.pos m * 2 ^ 53) / Z.pos m)%Z.
  change (snd (Z.div_eucl (Z.pos m * 2 ^ 53) (Z.pos m)))
    with ((Z.pos m * 2 ^ 53) mod Z.pos m)%Z.
  rewrite (Z.mul_comm (Z.pos m)), Z.div_mul, Z.mod_mul by lia.
  assert (new_location (Z.pos m) 0 = loc_Exact) as ->.
  { unfold new_location, new_location_even, new_location_odd.
    now destruct (IntDef.Z.even (Z.pos m)). }
  rewrite xorb_nilpotent. vm_compute. reflexivity.
Qed.

(** For a finite drain volume of at least 1e-6,
    [drain_volume / max(drain_volume, 1e-6)] is 1.0. *)
Lemma div_self (x : float) :
  (1e-6 <=? x)%float = true -> is_infinity x = false ->
  (x / py_max x 1e-6)%float = 1%float.
Proof.
  intros Hle Hfin.
  assert (exists m e, Prim2SF x = S754_finite false m e) as (m & e & Hx).
  { revert Hle Hfin. unfold is_infinity.
    rewrite leb_spec, eqb_spec, abs_spec.
    change (Prim2SF 1e-6) with (S754_finite false 4722366482869645 (-72)).
    change (Prim2SF infinity) with (S754_infinity false).
    destruct (Prim2SF x) as [s|s| |s m e]; cbn; try (intros; discriminate).
    destruct s; [intros; discriminate|]. intros _ _. now exists m, e. }
  assert ((x <? 1e-6)%float = false) as Hlt.
  { revert Hle. rewrite leb_spec, ltb_spec, Hx.
    change (Prim2SF 1e-6) with (S754_finite false 4722366482869645 (-72)).
    unfold SFleb, SFltb, SFcompare.
    rewrite (Z.compare_antisym e (-72)).
    destruct (e ?= -72)%Z; cbn [CompOpp];
      try discriminate; try reflexivity.
    change PosDef.Pos.compare_cont with Pos.compare_cont.
    pose proof (Pos.compare_cont_antisym m 4722366482869645 Eq) as A.
    change (CompOpp Eq) with Eq in A. rewrite <- A.
    destruct (Pos.compare_cont Eq m 4722366482869645); cbn [CompOpp];
      try discriminate; reflexivity. }
  unfold py_max. rewrite Hlt.
  apply Prim2SF_inj. rewrite div_spec, Hx. apply SFdiv_same.
Qed.

Section Properties.

Context {L : Runtime}.

(** ** How [check_discrepancy] runs *)

(** A frame that passed the column check has columns. *)
Lemma tickets_frame_columns (all_tickets : pyval) (df : DataFrame) :
  tickets_frame all_tickets = inr df ->
  empty df = false /\ issubset expected_cols (columns df) = true.
Proof.
  unfold tickets_frame. destruct (json_normalize all_tickets) as [msg|t]; [discriminate|].
  destruct (empty t) eqn:E; [discriminate|].
  destruct (issubset expected_cols (columns t)) eqn:S; simpl; [|discriminate].
  intros H. injection H as <-. now split.
Qed.

Lemma filter_tickets_columns (df ct : DataFrame) (cid d : pyval) (date_obj : pdate) :
  filter_tickets df cid d = Return (date_obj, ct) -> columns ct = columns df.
Proof.
  unfold filter_tickets.
  destruct (to_datetime_column (series df "date")); [|discriminate].
  destruct (to_datetime d); [|discriminate].
  destruct (column_eq (series df "cauldron_id") cid); [|discriminate].
  simpl. intros H. injection H as _ <-. reflexivity.
Qed.

(** Past the column check, a filtered frame is empty exactly when it has no
    row. *)
Lemma filtered_empty (a : pyval) (df ct : DataFrame) (cid d : pyval) (date_obj : pdate) :
  tickets_frame a = inr df ->
  filter_tickets df cid d = Return (date_obj, ct) ->
  empty ct = match rows ct with [] => true | _ => false end.
Proof.
  intros Hf Hc. apply tickets_frame_columns in Hf. destruct Hf as [He _].
  apply filter_tickets_columns in Hc. unfold empty in *. rewrite Hc.
  destruct (rows ct); [reflexivity|].
  destruct (columns df); [|reflexivity]. now destruct (rows df).
Qed.

(** Once the stages before it succeed, the evaluation is the comparison. *)
Lemma check_discrepancy_stages (u : upstream) (cid d : pyval)
    (drain tol thr : float) (a : pyval) (df ct : DataFrame) (date_obj : pdate) :
  fetch_tickets u = inr a ->
  tickets_frame a = inr df ->
  filter_tickets df cid d = Return (date_obj, ct) ->
  check_discrepancy u cid d drain tol thr
  = compare_volumes cid date_obj drain tol thr ct.
Proof.
  intros H1 H2 H3. unfold check_discrepancy. rewrite H1, H2, H3. reflexivity.
Qed.

(** Every result comes out of the comparison stage. *)
Lemma check_discrepancy_result (u : upstream) (cid d : pyval)
    (drain tol thr : float) (r : ReconciliationResult) :
  check_discrepancy u cid d drain tol thr = Return (Result r) ->
  exists a df date_obj ct,
    fetch_tickets u = inr a /\ tickets_frame a = inr df /\
    filter_tickets df cid d = Return (date_obj, ct) /\
    compare_volumes cid date_obj drain tol thr ct = Return (Result r).
Proof.
  unfold check_discrepancy.
  destruct (fetch_tickets u) as [e|a] eqn:H1; [discriminate|].
  destruct (tickets_frame a) as [e|df] eqn:H2; [discriminate|].
  destruct (filter_tickets df cid d) as [[date_obj ct]|e] eqn:H3; [|discriminate].
  cbn [bind fst snd]. intros H. now exists a, df, date_obj, ct.
Qed.

Lemma compare_volumes_result (cid : pyval) (date_obj : pdate)
    (drain tol thr : float) (ct : DataFrame) (r : ReconciliationResult) :
  compare_volumes cid date_obj drain tol thr ct = Return (Result r) ->
  (empty ct = true /\
   r = mkResult cid (str_date date_obj) drain 0%float drain 1%float
         MISSING_TICKET None)
  \/
  (empty ct = false /\
   exists sum total,
     column_sum (series ct "amount_collected") = Some sum /\
     number_float sum = Return total /\
     r = mkResult cid (str_date date_obj) drain total
           (abs (total - drain))%float
           (abs (total - drain) / py_max drain 1e-6)%float
           (classify_status sum drain (abs (total - drain))%float
              (abs (total - drain) / py_max drain 1e-6)%float tol thr)
           (Some (shape0 ct))).
Proof.
  unfold compare_volumes. destruct (empty ct).
  - intros H. left. split; [reflexivity|]. now injection H as <-.
  - destruct (column_sum (series ct "amount_collected")) as [sum|];
      [|discriminate].
    cbn [or_raise bind].
    destruct (number_float sum) as [total|] eqn:Hf; [|discriminate].
    cbn [bind]. intros H. right. split; [reflexivity|]. exists sum, total.
    split; [reflexivity|]. split; [exact Hf|]. now injection H as <-.
Qed.

(** ** The comparison *)


(** C2. When the stages before the filter succeed and no ticket matches
    both the cauldron and the normalised date, the evaluation returns the
    [MISSING_TICKET] result: total 0.0, difference [drain_volume],
    relative_diff 1.0, no [num_tickets]. The ticket sum is never asked
    for. *)
Theorem missing_ticket_result (u : upstream) (cid d : pyval)
    (drain tol thr : float) (a : pyval) (df : DataFrame)
    (dates : list pdate) (date_obj : pdate) (id_mask : list bool) :
  fetch_tickets u = inr a ->
  tickets_frame a = inr df ->
  to_datetime_column (series df "date") = Some dates ->
  to_datetime d = Some date_obj ->
  column_eq (series df "cauldron_id") cid = Some id_mask ->
  (forall i,
     nth i id_mask false && date_eqb (nth i dates NaT) date_obj = false) ->
  check_discrepancy u cid d drain tol thr
  = Return (Result
      {| cauldron_id := cid;
         date := str_date date_obj;
         drain_volume := drain;
         total_ticket_volume := 0%float;
         difference := drain;
         relative_diff := 1%float;
         status := MISSING_TICKET;
         num_tickets := None |}).
Proof.
  intros Hfetch Hframe Hdates Hdate Hid Hnone.
  unfold check_discrepancy. rewrite Hfetch, Hframe.
  unfold filter_tickets. rewrite Hdates, Hdate, Hid.
  cbn [or_raise bind fst snd].
  rewrite boolean_index_unset.
  - unfold compare_volumes, empty. reflexivity.
  - intros i. rewrite nth_mask_and, nth_date_mask. apply Hnone.
Qed.

(** C3, as the code has it. In a result with matching tickets the
    difference is [|total_ticket_volume - drain_volume|], whatever the sign
    of the drain volume. In the [MISSING_TICKET] result the difference is
    the drain volume itself, next to a total of 0.0: that is the absolute
    gap when the drain volume is not negative. *)
Theorem difference_is_absolute_gap (u : upstream) (cid d : pyval)
    (drain tol thr : float) (r : ReconciliationResult) :
  check_discrepancy u cid d drain tol thr = Return (Result r) ->
  drain_volume r = drain /\
  match num_tickets r with
  | Some _ =>
      difference r = abs (total_ticket_volume r - drain_volume r)%float
  | None =>
      status r = MISSING_TICKET /\
      total_ticket_volume r = 0%float /\
      difference r = drain_volume r /\
      ((0 <=? drain_volume r)%float = true ->
       (difference r =? abs (total_ticket_volume r - drain_volume r))%float
       = true)
  end.
Proof.
  intros H. apply check_discrepancy_result in H.
  destruct H as (a & df & date_obj & ct & _ & _ & _ & H).
  apply compare_volumes_result in H.
  destruct H as [[_ ->]|[_ (sum & total & _ & _ & ->)]]; cbn.
  - repeat split. apply abs_zero_sub.
  - split; reflexivity.
Qed.

(** C4, as the code has it. In a result with matching tickets
    [relative_diff] is [difference / max(drain_volume, 1e-6)], also for a
    drain volume of zero. In the [MISSING_TICKET] result it is the constant
    1.0: that is the same quotient when the drain volume is finite and at
    least 1e-6. *)
Theorem relative_diff_formula (u : upstream) (cid d : pyval)
    (drain tol thr : float) (r : ReconciliationResult) :
  check_discrepancy u cid d drain tol thr = Return (Result r) ->
  drain_volume r = drain /\
  match num_tickets r with
  | Some _ =>
      relative_diff r = (difference r / py_max (drain_volume r) 1e-6)%float
  | None =>
      status r = MISSING_TICKET /\
      relative_diff r = 1%float /\
      ((1e-6 <=? drain_volume r)%float = true ->
       is_infinity (drain_volume r) = false ->
       relative_diff r
       = (difference r / py_max (drain_volume r) 1e-6)%float)
  end.
Proof.
  intros H. apply check_discrepancy_result in H.
  destruct H as (a & df & date_obj & ct & _ & _ & _ & H).
  apply compare_volumes_result in H.
  destruct H as [[_ ->]|[_ (sum & total & _ & _ & ->)]];
    cbn [drain_volume num_tickets status relative_diff difference].
  - repeat split. intros Hle Hfin. symmetry. now apply div_self.
  - split; reflexivity.
Qed.

(** ** Response shapes *)

Lemma fetch_tickets_member (m : list (string * pyval)) (v : pyval) :
  lookup "tickets" m = Some v \/
  (lookup "tickets" m = None /\ lookup "data" m = Some v) ->
  fetch_tickets (Fetched (PyDict m)) = inr v.
Proof.
  unfold fetch_tickets, all_tickets_of.
  intros [->|[-> ->]]; reflexivity.
Qed.

Lemma first_list_value_none (m : list (string * pyval)) :
  has_list_value m = false -> first_list_value m = PyList [].
Proof.
  induction m as [|[k v] m IH]; [reflexivity|].
  unfold has_list_value. cbn [existsb snd]. intros H.
  apply orb_false_iff in H. destruct H as [Hv Hm].
  destruct v; try discriminate; cbn [first_list_value]; now apply IH.
Qed.

(** C5. The same ticket list under ["tickets"], under ["data"], or bare
    gives the same evaluation, whatever the request. *)
Theorem response_shapes_agree (tickets : list pyval) (cid d : pyval)
    (drain tol thr : float) :
  check_discrepancy (Fetched (PyDict [("tickets", PyList tickets)]))
    cid d drain tol thr
  = check_discrepancy (Fetched (PyList tickets)) cid d drain tol thr
  /\
  check_discrepancy (Fetched (PyDict [("data", PyList tickets)]))
    cid d drain tol thr
  = check_discrepancy (Fetched (PyList tickets)) cid d drain tol thr.
Proof.
  unfold check_discrepancy.
  rewrite (fetch_tickets_member [("tickets", PyList tickets)] (PyList tickets))
    by (left; reflexivity).
  rewrite (fetch_tickets_member [("data", PyList tickets)] (PyList tickets))
    by (right; split; reflexivity).
  split; reflexivity.
Qed.

(** C6, as the code has it. The unexpected-format error is reported exactly
    for a body that is neither a mapping nor a list. A mapping with no
    ["tickets"] member, no ["data"] member and no list-valued member is
    evaluated as the empty ticket list, and so reported as an empty
    dataset once [json_normalize] gives an empty frame for it. *)
Theorem unexpected_format_only_for_scalars (data cid d : pyval)
    (drain tol thr : float) :
  (check_discrepancy (Fetched data) cid d drain tol thr
   = Return (Error UnexpectedResponseFormat)
   <-> is_dict_or_list data = false)
  /\
  (forall m,
     data = PyDict m ->
     lookup "tickets" m = None ->
     lookup "data" m = None ->
     has_list_value m = false ->
     check_discrepancy (Fetched data) cid d drain tol thr
     = check_discrepancy (Fetched (PyList [])) cid d drain tol thr
     /\
     (forall df,
        json_normalize (PyList []) = inr df -> empty df = true ->
        check_discrepancy (Fetched data) cid d drain tol thr
        = Return (Error EmptyDataset))).
Proof.
  split.
  - unfold check_discrepancy, fetch_tickets.
    destruct (all_tickets_of data) as [a|] eqn:Ha.
    + assert (is_dict_or_list data = true) as ->.
      { destruct data; try discriminate; reflexivity. }
      split; [|discriminate].
      unfold tickets_frame.
      destruct (json_normalize a) as [msg|t]; [discriminate|].
      destruct (empty t); [discriminate|].
      destruct (negb (issubset expected_cols (columns t))); [discriminate|].
      destruct (filter_tickets t cid d) as [[date_obj ct]|e];
        cbn [bind fst snd]; [|discriminate].
      unfold compare_volumes. destruct (empty ct); [discriminate|].
      destruct (column_sum (series ct "amount_collected")) as [sum|];
        [|discriminate].
      cbn [or_raise bind]. destruct (number_float sum); discriminate.
    + assert (is_dict_or_list data = false) as ->.
      { destruct data as [| | | | | |m]; try reflexivity; try discriminate.
        cbn in Ha. destruct (lookup "tickets" m); [discriminate|].
        destruct (lookup "data" m); discriminate. }
      split; reflexivity.
  - intros m -> Ht Hd Hl.
    assert (fetch_tickets (Fetched (PyDict m)) = inr (PyList [])) as E.
    { unfold fetch_tickets, all_tickets_of. rewrite Ht, Hd.
      now rewrite first_list_value_none. }
    unfold check_discrepancy. rewrite E. split; [reflexivity|].
    intros df Hn He. unfold tickets_frame. now rewrite Hn, He.
Qed.

(** C7. The worked example. For a runtime that reads the two tickets as
    pandas does (a frame of three columns, both dates 2025-11-01, both ids
    equal to "c1", amounts summing to 102), the request
    (c1, 2025-11-01, 100, 0.05, 5.0) gives total 102.0, difference 2.0,
    relative_diff 0.02, status OK and two tickets. *)
Theorem worked_example :
  json_normalize (PyList example_tickets)
  = inr (mkDataFrame ["cauldron_id"; "date"; "amount_collected"] example_records) ->
  to_datetime_column [PyStr "2025-11-01"; PyStr "2025-11-01"]
  = Some [Date 2025 11 1; Date 2025 11 1] ->
  to_datetime (PyStr "2025-11-01") = Some (Date 2025 11 1) ->
  column_eq [PyStr "c1"; PyStr "c1"] (PyStr "c1") = Some [true; true] ->
  column_sum [PyInt 60; PyInt 42] = Some (Float64 102) \/
  column_sum [PyInt 60; PyInt 42] = Some (ExactInt 102) ->
  check_discrepancy (Fetched (PyList example_tickets))
    (PyStr "c1") (PyStr "2025-11-01") 100 0.05 5.0
  = Return (Result
      {| cauldron_id := PyStr "c1";
         date := "2025-11-01";
         drain_volume := 100;
         total_ticket_volume := 102;
         difference := 2;
         relative_diff := 0.02;
         status := OK;
         num_tickets := Some 2%nat |}).
Proof.
  intros Hframe Hdates Hdate Hid Hsum.
  unfold check_discrepancy. cbn [fetch_tickets all_tickets_of].
  unfold tickets_frame. rewrite Hframe.
  cbn [empty rows columns example_records].
  change (issubset expected_cols ["cauldron_id"; "date"; "amount_collected"])
    with true.
  cbn [negb]. unfold filter_tickets.
  change (series _ "date") with [PyStr "2025-11-01"; PyStr "2025-11-01"].
  change (series _ "cauldron_id") with [PyStr "c1"; PyStr "c1"].
  rewrite Hdates, Hdate, Hid. cbn [or_raise bind fst snd].
  unfold compare_volumes.
  change (series _ "amount_collected") with [PyInt 60; PyInt 42].
  destruct Hsum as [-> | ->]; reflexivity.
Qed.

(** A frame with a row and a column that lacks a required column is
    reported with the columns it has. *)
Lemma frame_missing_columns (u : upstream) (cid d : pyval)
    (drain tol thr : float) (a : pyval) (df : DataFrame) :
  fetch_tickets u = inr a ->
  json_normalize a = inr df ->
  empty df = false ->
  (exists c, In c expected_cols /\ ~ In c (columns df)) ->
  check_discrepancy u cid d drain tol thr
  = Return (Error (MissingColumns (columns df)))
  /\
  jsonify (Error (MissingColumns (columns df)))
  = ErrorJson ("Missing expected columns in ticket data: "
               ++ "[" ++ String.concat ", " (map repr_str (columns df)) ++ "]").
Proof.
  intros Hfetch Hframe Hempty Hmissing.
  apply issubset_false in Hmissing.
  split; [|reflexivity].
  unfold check_discrepancy. rewrite Hfetch.
  unfold tickets_frame. now rewrite Hframe, Hempty, Hmissing.
Qed.

(** C8, as the code has it. A decoded collection with at least one record
    that lacks one of [cauldron_id], [date], [amount_collected] makes the
    evaluation return (not raise) an error. When its records have some
    field, that is the missing-columns error, whose message lists the
    columns the frame has. When its records have no field at all, the
    frame has no column, line 54 fires first, and the error is the empty
    dataset. *)
Theorem missing_columns_or_empty_dataset (u : upstream) (cid d : pyval)
    (drain tol thr : float) (a : pyval) (df : DataFrame) :
  fetch_tickets u = inr a ->
  json_normalize a = inr df ->
  rows df <> [] ->
  (exists c, In c expected_cols /\ ~ In c (columns df)) ->
  (columns df <> [] ->
   check_discrepancy u cid d drain tol thr
   = Return (Error (MissingColumns (columns df)))
   /\
   jsonify (Error (MissingColumns (columns df)))
   = ErrorJson ("Missing expected columns in ticket data: "
                ++ "[" ++ String.concat ", " (map repr_str (columns df))
                ++ "]"))
  /\
  (columns df = [] ->
   check_discrepancy u cid d drain tol thr = Return (Error EmptyDataset)).
Proof.
  intros Hfetch Hframe Hrows Hmissing. split; intros Hcols.
  - apply (frame_missing_columns u cid d drain tol thr a df);
      try assumption.
    unfold empty. destruct (rows df); [contradiction|].
    now destruct (columns df).
  - unfold check_discrepancy. rewrite Hfetch.
    unfold tickets_frame. rewrite Hframe.
    unfold empty. rewrite Hcols. now destruct (rows df).
Qed.

(** ** The handler *)

Lemma validate_rejection (body : option pyval) (msg : string) :
  validate body = Return (inl msg) ->
  msg = "Invalid or missing JSON body" \/
  msg = "Missing 'cauldron_data' field" \/
  msg = "Missing required cauldron fields".
Proof.
  unfold validate.
  destruct body as [data|]; [|intros H; injection H as <-; now left].
  destruct data as [| | | | | |m];
    try (intros H; injection H as <-; now left); try discriminate.
  cbn [get bind].
  destruct (negb (truthy _)); [intros H; injection H as <-; tauto|].
  destruct (match lookup "cauldron_data" m with Some v => v | None => PyDict [] end)
    as [| | | | | |cd]; try discriminate.
  cbn [get bind].
  destruct (negb _); [intros H; injection H as <-; tauto|discriminate].
Qed.

(** C9, at the input where the code departs from it: a tolerance that is
    text and no number passes the field checks, and [float] then raises
    [ValueError] outside every [try]; the handler returns no JSON error. *)
Theorem text_tolerance_escapes (u : upstream) :
  float_of_str "abc" = None ->
  validate (Some body_text_tolerance)
  = Return (inr (body_text_tolerance, PyStr "c1", PyStr "2025-11-01", PyInt 100))
  /\
  detect_daily_discrepancy (Some body_text_tolerance) u = Raise ValueError.
Proof.
  intros H. split; [reflexivity|].
  unfold detect_daily_discrepancy.
  change (validate (Some body_text_tolerance))
    with (Return (A := string + pyval * pyval * pyval * pyval)
            (inr (body_text_tolerance, PyStr "c1", PyStr "2025-11-01", PyInt 100))).
  cbn [bind]. unfold float_get at 1.
  cbn [get bind body_text_tolerance lookup String.eqb Ascii.eqb Bool.eqb py_float].
  now rewrite H.
Qed.

(** C10, as the code has it. A body that passes the field checks, whose
    tolerance, threshold and drain volume convert to floats and whose
    evaluation returns a payload (a result or any failure payload) is
    answered with that payload and status 200; a body that fails a field
    check is answered 400; and 400 is answered for nothing else. *)
Theorem response_status (body : option pyval) (u : upstream) :
  (forall data cid d dv tol thr drain p,
     validate body = Return (inr (data, cid, d, dv)) ->
     float_get data "tolerance" 0.05 = Return tol ->
     float_get data "threshold" 5.0 = Return thr ->
     py_float dv = Return drain ->
     check_discrepancy u cid d drain tol thr = Return p ->
     detect_daily_discrepancy body u = Return (jsonify p, 200%Z))
  /\
  (forall msg,
     validate body = Return (inl msg) ->
     detect_daily_discrepancy body u = Return (ErrorJson msg, 400%Z))
  /\
  (forall b,
     detect_daily_discrepancy body u = Return (b, 400%Z) ->
     exists msg, validate body = Return (inl msg) /\ b = ErrorJson msg).
Proof.
  unfold detect_daily_discrepancy. repeat split.
  - intros data cid d dv tol thr drain p Hv Htol Hthr Hdrain Hcheck.
    rewrite Hv. cbn [bind]. rewrite Htol, Hthr, Hdrain. cbn [bind].
    now rewrite Hcheck.
  - intros msg Hv. now rewrite Hv.
  - destruct (validate body) as [[msg|[[[data cid] d] dv]]|e];
      cbn [bind]; [| |discriminate].
    + intros b H. injection H as <-. now exists msg.
    + intros b.
      destruct (float_get data "tolerance" 0.05) as [tol|];
        cbn [bind]; [|discriminate].
      destruct (float_get data "threshold" 5.0) as [thr|];
        cbn [bind]; [|discriminate].
      destruct (py_float dv) as [drain|]; cbn [bind]; [|discriminate].
      destruct (check_discrepancy u cid d drain tol thr);
        cbn [bind]; discriminate.
Qed.

(** X1. A request whose [cauldron_data] has no [drain_volume] (or has [null]
    there) is answered 400 with "Missing required cauldron fields",
    before anything is fetched. *)
Theorem missing_drain_volume_rejected (m cd : list (string * pyval))
    (u : upstream) :
  lookup "cauldron_data" m = Some (PyDict cd) ->
  cd <> [] ->
  lookup "drain_volume" cd = None \/ lookup "drain_volume" cd = Some PyNone ->
  detect_daily_discrepancy (Some (PyDict m)) u
  = Return (ErrorJson "Missing required cauldron fields", 400%Z).
Proof.
  intros Hcd Hne Hdrain.
  unfold detect_daily_discrepancy, validate. cbn [get bind]. rewrite Hcd.
  destruct cd as [|item cd']; [contradiction|]. cbn [truthy negb get bind].
  assert (is_None (match lookup "drain_volume" (item :: cd') with
                   | Some v => v
                   | None => PyNone
                   end) = true) as ->.
  { destruct Hdrain as [->| ->]; reflexivity. }
  cbn [negb]. now rewrite andb_false_r.
Qed.

(** X2. The drain volume is checked for presence, not for truth: any value but
    [null], zero included, passes the field checks. *)
Theorem present_drain_volume_accepted (m cd : list (string * pyval))
    (cid d dv : pyval) :
  lookup "cauldron_data" m = Some (PyDict cd) ->
  lookup "cauldron_id" cd = Some cid -> truthy cid = true ->
  lookup "date_time" cd = Some d -> truthy d = true ->
  lookup "drain_volume" cd = Some dv -> is_None dv = false ->
  validate (Some (PyDict m)) = Return (inr (PyDict m, cid, d, dv)).
Proof.
  intros Hcd Hid Tid Hd Td Hdv Ndv.
  unfold validate. cbn [get bind]. rewrite Hcd.
  destruct cd as [|item cd']; [discriminate|]. cbn [truthy negb get bind].
  now rewrite Hid, Hd, Hdv, Tid, Td, Ndv.
Qed.

End Properties.

(* ================================================================== *)
(** * The properties on the reference runtime *)


Lemma missing_ticket_example :
  evaluate_example "c2" 100
  = Return (Result (missing_result (PyStr "c2") "2025-11-01" 100)).
Proof.
  apply (missing_ticket_result (L := reference)
           (Fetched (PyList example_tickets)) (PyStr "c2") (PyStr "2025-11-01")
           100 0.05 5.0 (PyList example_tickets) example_frame
           [Date 2025 11 1; Date 2025 11 1] (Date 2025 11 1) [false; false]);
    [reflexivity|reflexivity|reflexivity|reflexivity|reflexivity|].
  intros [|[|i]]; [reflexivity|reflexivity|now destruct i].
Defined.

(** With a negative drain volume and no matching ticket the difference is
    the negative drain volume, not the absolute gap. *)
Lemma negative_drain_difference :
  evaluate_example "c2" (-5)
  = Return (Result (missing_result (PyStr "c2") "2025-11-01" (-5)))
  /\ difference (missing_result (PyStr "c2") "2025-11-01" (-5)) = (-5)%float
  /\ abs (0 - -5)%float = 5%float
  /\ (-5 =? 5)%float = false.
Proof.
  repeat split.
Qed.

Lemma difference_example :
  drain_volume example_result = 100%float /\
  difference example_result
  = abs (total_ticket_volume example_result - drain_volume example_result)%float.
Proof.
  apply (difference_is_absolute_gap (L := reference)
           (Fetched (PyList example_tickets)) (PyStr "c1") (PyStr "2025-11-01")
           100 0.05 5.0 example_result).
  reflexivity.
Defined.

(** With a drain volume of zero and no matching ticket the relative
    difference is 1.0, while difference / max(drain_volume, 1e-6) is 0.0. *)
Lemma zero_drain_relative_diff :
  evaluate_example "c2" 0
  = Return (Result (missing_result (PyStr "c2") "2025-11-01" 0))
  /\ relative_diff (missing_result (PyStr "c2") "2025-11-01" 0) = 1%float
  /\ (difference (missing_result (PyStr "c2") "2025-11-01" 0)
      / py_max 0 1e-6)%float = 0%float
  /\ (1 =? 0)%float = false.
Proof.
  repeat split.
Qed.

Lemma relative_diff_example :
  drain_volume example_result = 100%float /\
  relative_diff example_result
  = (difference example_result / py_max (drain_volume example_result) 1e-6)%float.
Proof.
  apply (relative_diff_formula (L := reference)
           (Fetched (PyList example_tickets)) (PyStr "c1") (PyStr "2025-11-01")
           100 0.05 5.0 example_result).
  reflexivity.
Defined.

(** A mapping with no list in it is no unexpected format: it is an empty
    dataset. *)
Lemma mapping_without_list :
  is_dict_or_list (PyDict [("count", PyInt 0)]) = true
  /\ has_list_value [("count", PyInt 0)] = false
  /\ check_discrepancy (L := reference) (Fetched (PyDict [("count", PyInt 0)]))
       (PyStr "c1") (PyStr "2025-11-01") 100 0.05 5.0
     = Return (Error EmptyDataset).
Proof.
  repeat split.
Qed.

Lemma unexpected_format_example :
  check_discrepancy (L := reference) (Fetched (PyStr "maintenance"))
    (PyStr "c1") (PyStr "2025-11-01") 100 0.05 5.0
  = Return (Error UnexpectedResponseFormat).
Proof.
  apply (proj1 (unexpected_format_only_for_scalars (L := reference)
                  (PyStr "maintenance") (PyStr "c1") (PyStr "2025-11-01")
                  100 0.05 5.0)).
  reflexivity.
Defined.

Lemma worked_example_reference :
  evaluate_example "c1" 100 = Return (Result example_result).
Proof.
  apply (worked_example (L := reference));
    [reflexivity|reflexivity|reflexivity|reflexivity|left; reflexivity].
Defined.

Lemma missing_columns_example :
  check_discrepancy (L := reference)
    (Fetched (PyList [PyDict [("cauldron_id", PyStr "c1");
                              ("date", PyStr "2025-11-01")]]))
    (PyStr "c1") (PyStr "2025-11-01") 100 0.05 5.0
  = Return (Error (MissingColumns ["cauldron_id"; "date"]))
  /\
  jsonify (L := reference) (Error (MissingColumns ["cauldron_id"; "date"]))
  = ErrorJson
      "Missing expected columns in ticket data: ['cauldron_id', 'date']".
Proof.
  refine (proj1 (missing_columns_or_empty_dataset (L := reference)
           (Fetched (PyList [PyDict [("cauldron_id", PyStr "c1");
                                     ("date", PyStr "2025-11-01")]]))
           (PyStr "c1") (PyStr "2025-11-01") 100 0.05 5.0
           (PyList [PyDict [("cauldron_id", PyStr "c1");
                            ("date", PyStr "2025-11-01")]])
           (mkDataFrame ["cauldron_id"; "date"]
              [[("cauldron_id", PyStr "c1"); ("date", PyStr "2025-11-01")]])
           eq_refl eq_refl _ _) _).
  - discriminate.
  - exists "amount_collected". split.
    + right. right. left. reflexivity.
    + intros [H|[H|[]]]; discriminate H.
  - discriminate.
Defined.

(** A collection of one record with no field is no missing-columns
    failure: its frame has a row and no column, and that is an empty
    dataset. *)
Lemma keyless_record_is_empty_dataset :
  @json_normalize reference (PyList [PyDict []]) = inr (mkDataFrame [] [[]])
  /\ List.length (rows (mkDataFrame [] [[]])) = 1%nat
  /\ issubset expected_cols (columns (mkDataFrame [] [[]])) = false
  /\ check_discrepancy (L := reference) (Fetched (PyList [PyDict []]))
       (PyStr "c1") (PyStr "2025-11-01") 100 0.05 5.0
     = Return (Error EmptyDataset).
Proof.
  repeat split.
Qed.

(** A sum that is a Python int is compared with the drain volume exactly:
    one ticket of 2^70 + 1 against a drain volume of 2^70 is
    [OVER_REPORTED], although the sum as a float equals the drain volume
    and the difference is 0.0. *)
Lemma exact_integer_sum_over_reported :
  check_discrepancy (L := reference)
    (Fetched (PyList [PyDict (ticket "c1" "2025-11-01" (2 ^ 70 + 1))]))
    (PyStr "c1") (PyStr "2025-11-01") 1180591620717411303424 (-1) (-1)
  = Return (Result
      {| cauldron_id := PyStr "c1";
         date := "2025-11-01";
         drain_volume := 1180591620717411303424;
         total_ticket_volume := 1180591620717411303424;
         difference := 0;
         relative_diff := 0;
         status := OVER_REPORTED;
         num_tickets := Some 1%nat |}).
Proof.
  vm_compute. reflexivity.
Qed.

Lemma text_tolerance_example :
  validate (Some body_text_tolerance)
  = Return (inr (body_text_tolerance, PyStr "c1", PyStr "2025-11-01", PyInt 100))
  /\
  detect_daily_discrepancy (L := reference) (Some body_text_tolerance)
    (Fetched (PyList example_tickets))
  = Raise ValueError.
Proof.
  apply (text_tolerance_escapes (L := reference)
           (Fetched (PyList example_tickets))).
  reflexivity.
Defined.

(** A drain volume that is text passes the field checks, and the request
    is not answered 200: the conversion raises. *)
Lemma text_drain_volume_raises :
  validate (Some body_text_drain)
  = Return (inr (body_text_drain, PyStr "c1", PyStr "2025-11-01", PyStr "n/a"))
  /\
  detect_daily_discrepancy (L := reference) (Some body_text_drain)
    (Fetched (PyList example_tickets))
  = Raise ValueError.
Proof.
  split; reflexivity.
Qed.

(** A fetch failure is answered with its error payload and status 200. *)
Lemma fetch_failure_answered_200 :
  detect_daily_discrepancy (L := reference) (Some body_plain)
    (FetchRaised "timed out")
  = Return (ErrorJson "Failed to fetch tickets API: timed out", 200%Z).
Proof.
  apply (proj1 (response_status (L := reference) (Some body_plain)
                  (FetchRaised "timed out"))
           body_plain (PyStr "c1") (PyStr "2025-11-01") (PyInt 100)
           0.05%float 5.0%float 100%float (Error (FetchFailed "timed out")));
    reflexivity.
Defined.

Lemma missing_drain_volume_example :
  detect_daily_discrepancy (L := reference) (Some body_no_drain)
    (Fetched (PyList example_tickets))
  = Return (ErrorJson "Missing required cauldron fields", 400%Z).
Proof.
  apply (missing_drain_volume_rejected (L := reference)
           [("cauldron_data",
             PyDict [("cauldron_id", PyStr "c1");
                     ("date_time", PyStr "2025-11-01")])]
           [("cauldron_id", PyStr "c1"); ("date_time", PyStr "2025-11-01")]);
    [reflexivity|discriminate|left; reflexivity].
Defined.

Lemma zero_drain_volume_example :
  validate (Some body_zero_drain)
  = Return (inr (body_zero_drain, PyStr "c1", PyStr "2025-11-01", PyInt 0)).
Proof.
  apply (present_drain_volume_accepted
           [("cauldron_data", cauldron_data_of (PyInt 0))]
           [("cauldron_id", PyStr "c1"); ("date_time", PyStr "2025-11-01");
            ("drain_volume", PyInt 0)]);
    reflexivity.
Defined.

(* ================================================================== *)
(** * Further properties *)

Lemma lookup_app (key : string) (d d' : list (string * pyval)) :
  lookup key (d ++ d')
  = match lookup key d with
    | Some v => Some v
    | None => lookup key d'
    end.
Proof.
  induction d as [|[k v] d IH]; [reflexivity|].
  cbn [app lookup]. now destruct (String.eqb k key).
Qed.

Section HandlerProperties.

Context {L : Runtime}.

(** ** What the field checks reject, raise on, and guarantee *)

(** X3. A body that is JSON but no object (a list, a string, a number, a
    boolean) has no [get]: the handler raises [AttributeError]. So does a
    [cauldron_data] member that is true in Python's sense and no object. *)
Theorem wrong_type_body_raises (u : upstream) :
  (forall data,
     is_dict data = false -> is_None data = false ->
     detect_daily_discrepancy (Some data) u = Raise AttributeError)
  /\
  (forall m v,
     lookup "cauldron_data" m = Some v ->
     truthy v = true -> is_dict v = false ->
     detect_daily_discrepancy (Some (PyDict m)) u = Raise AttributeError).
Proof.
  split.
  - intros data Hd Hn. unfold detect_daily_discrepancy, validate.
    destruct data; try discriminate; reflexivity.
  - intros m v Hv Ht Hd. unfold detect_daily_discrepancy, validate.
    cbn [get bind]. rewrite Hv, Ht. cbn [negb].
    destruct v; try discriminate; reflexivity.
Qed.

(** X4. A body that is absent, no JSON, or [null] is answered 400 with
    "Invalid or missing JSON body"; an object whose [cauldron_data] is
    absent or false in Python's sense (null, false, 0, "", [], {}) is
    answered 400 with "Missing 'cauldron_data' field". *)
Theorem missing_cauldron_data_rejected (u : upstream) :
  detect_daily_discrepancy None u
  = Return (ErrorJson "Invalid or missing JSON body", 400%Z)
  /\
  detect_daily_discrepancy (Some PyNone) u
  = Return (ErrorJson "Invalid or missing JSON body", 400%Z)
  /\
  (forall m v,
     get (PyDict m) "cauldron_data" (PyDict []) = Return v ->
     truthy v = false ->
     detect_daily_discrepancy (Some (PyDict m)) u
     = Return (ErrorJson "Missing 'cauldron_data' field", 400%Z)).
Proof.
  repeat split.
  intros m v Hv Ht. unfold detect_daily_discrepancy, validate.
  rewrite Hv. cbn [bind]. now rewrite Ht.
Qed.

(** X5. A cauldron id or a date that is present but false in Python's sense
    (0, "", false, [], {}) is rejected like a missing one: 400 with
    "Missing required cauldron fields". *)
Theorem falsy_identifier_rejected (m cd : list (string * pyval))
    (cid d : pyval) (u : upstream) :
  lookup "cauldron_data" m = Some (PyDict cd) ->
  cd <> [] ->
  get (PyDict cd) "cauldron_id" PyNone = Return cid ->
  get (PyDict cd) "date_time" PyNone = Return d ->
  truthy cid && truthy d = false ->
  detect_daily_discrepancy (Some (PyDict m)) u
  = Return (ErrorJson "Missing required cauldron fields", 400%Z).
Proof.
  intros Hcd Hne Hid Hd Hfalse.
  unfold detect_daily_discrepancy, validate. cbn [get bind]. rewrite Hcd.
  destruct cd as [|item cd']; [contradiction|].
  cbn [truthy negb]. rewrite Hid, Hd. cbn [get bind].
  now rewrite Hfalse.
Qed.

(** X6. What passing the field checks guarantees to the rest of the
    handler: the body is an object, its [cauldron_data] is a non-empty
    object, the cauldron id and the date are its members and true in
    Python's sense, and the drain volume is its member and not [null]. *)
Theorem validate_guarantees (body : option pyval) (data cid d dv : pyval) :
  validate body = Return (inr (data, cid, d, dv)) ->
  body = Some data /\
  exists m cd,
    data = PyDict m /\
    lookup "cauldron_data" m = Some (PyDict cd) /\ cd <> [] /\
    lookup "cauldron_id" cd = Some cid /\ truthy cid = true /\
    lookup "date_time" cd = Some d /\ truthy d = true /\
    lookup "drain_volume" cd = Some dv /\ is_None dv = false.
Proof.
  unfold validate.
  destruct body as [b|]; [|discriminate].
  destruct b as [| | | | | |m]; try discriminate.
  cbn [get bind].
  destruct (lookup "cauldron_data" m) as [v|] eqn:Hcd; [|discriminate].
  destruct (negb (truthy v)) eqn:Hv; [discriminate|].
  destruct v as [| | | | | |cd]; try discriminate.
  cbn [get bind].
  destruct (lookup "cauldron_id" cd) as [cid'|] eqn:Hid;
    [|discriminate].
  destruct (lookup "date_time" cd) as [d'|] eqn:Hd;
    [|cbn [truthy]; rewrite andb_false_r; discriminate].
  destruct (lookup "drain_volume" cd) as [dv'|] eqn:Hdv;
    [|cbn [is_None negb]; rewrite andb_false_r; discriminate].
  destruct (truthy cid') eqn:Tid; [|discriminate].
  destruct (truthy d') eqn:Td; [|discriminate].
  destruct (is_None dv') eqn:Ndv; [discriminate|].
  cbn [andb negb]. intros H. injection H as <- <- <- <-.
  split; [reflexivity|]. exists m, cd.
  repeat split; try reflexivity; try assumption.
  intros ->. discriminate.
Qed.

(** X7. Leaving [tolerance] and [threshold] out of the body is the same as
    sending 0.05 and 5.0: the two requests get the same answer, or raise
    alike. *)
Theorem default_tolerance_threshold (m : list (string * pyval)) (u : upstream) :
  lookup "tolerance" m = None ->
  lookup "threshold" m = None ->
  detect_daily_discrepancy (Some (PyDict m)) u
  = detect_daily_discrepancy
      (Some (PyDict (m ++ [("tolerance", PyFloat 0.05);
                           ("threshold", PyFloat 5.0)]))) u.
Proof.
  intros Htol Hthr.
  unfold detect_daily_discrepancy, validate, float_get.
  cbn [get bind]. rewrite !lookup_app.
  destruct (lookup "cauldron_data" m) as [v|]; [|reflexivity].
  destruct (negb (truthy v)); [reflexivity|].
  destruct (get v "cauldron_id" PyNone) as [cid|e]; [|reflexivity].
  destruct (get v "date_time" PyNone) as [d|e]; [|reflexivity].
  destruct (get v "drain_volume" PyNone) as [dv|e]; [|reflexivity].
  cbn [bind].
  destruct (negb (truthy cid && truthy d && negb (is_None dv)));
    [reflexivity|].
  cbn [get bind]. rewrite !lookup_app, Htol, Hthr. reflexivity.
Qed.

End HandlerProperties.

(** ** Masks *)

Lemma boolean_index_length {A : Type} (xs : list A) (mask : list bool) :
  (List.length (boolean_index xs mask) <= List.length xs)%nat.
Proof.
  revert mask. induction xs as [|x xs IH]; intros mask; [now destruct mask|].
  destruct mask as [|b mask]; cbn [boolean_index List.length]; [lia|].
  specialize (IH mask). destruct b; cbn [List.length]; lia.
Qed.

(** An entry is kept exactly when it stands at a position whose bit is
    set. *)
Lemma boolean_index_In {A : Type} (xs : list A) (mask : list bool) (x : A) :
  In x (boolean_index xs mask) <->
  exists i, nth_error xs i = Some x /\ nth i mask false = true.
Proof.
  revert mask. induction xs as [|y xs IH]; intros mask.
  - split; [now destruct mask|]. intros [i [H _]]. now destruct i.
  - destruct mask as [|b mask].
    + split; [intros []|]. intros [i [_ H]]. now destruct i.
    + cbn [boolean_index]. destruct b.
      * cbn [In]. rewrite IH. split.
        -- intros [->|[i [H1 H2]]]; [now exists 0%nat|now exists (S i)].
        -- intros [[|i] [H1 H2]]; [left; now injection H1|right; now exists i].
      * rewrite IH. split.
        -- intros [i [H1 H2]]. now exists (S i).
        -- intros [[|i] [H1 H2]]; [discriminate|now exists i].
Qed.

Lemma first_list_value_first (pre post : list (string * pyval))
    (k : string) (l : list pyval) :
  has_list_value pre = false ->
  first_list_value (pre ++ (k, PyList l) :: post) = PyList l.
Proof.
  induction pre as [|[k' v] pre IH]; [reflexivity|].
  unfold has_list_value. cbn [existsb snd]. intros H.
  apply orb_false_iff in H. destruct H as [Hv Hpre].
  destruct v; try discriminate; cbn [app first_list_value]; now apply IH.
Qed.

Section EvaluatorProperties.

Context {L : Runtime}.

(** ** Which failures are payloads and which are exceptions *)

(** X8. The evaluation returns an error payload exactly when the fetch or
    the frame stage fails, and then with that stage's error: the request's
    cauldron, date, drain volume, tolerance and threshold play no part,
    and the date is not even parsed. *)
Theorem error_payload_iff_dataset_error (u : upstream) (cid d : pyval)
    (drain tol thr : float) (e : EvaluationError) :
  check_discrepancy u cid d drain tol thr = Return (Error e)
  <->
  (fetch_tickets u = inl e \/
   exists a, fetch_tickets u = inr a /\ tickets_frame a = inl e).
Proof.
  unfold check_discrepancy. split.
  - destruct (fetch_tickets u) as [e1|a]; [intros H; injection H as <-; now left|].
    destruct (tickets_frame a) as [e2|df] eqn:Hf.
    + intros H. injection H as <-. right. now exists a.
    + destruct (filter_tickets df cid d) as [[date_obj ct]|x];
        cbn [bind fst snd]; [|discriminate].
      unfold compare_volumes. destruct (empty ct); [discriminate|].
      destruct (column_sum (series ct "amount_collected")) as [sum|];
        [|discriminate].
      cbn [or_raise bind]. destruct (number_float sum); discriminate.
  - intros [->|[a [-> ->]]]; reflexivity.
Qed.

(** X9. An exception leaves [check_discrepancy] only after the dataset has
    passed the emptiness and column checks, and only from one of the four
    steps outside the [try] blocks: the date column, the request date, the
    id comparison, or the ticket sum of a non-empty match (the sum raises
    or is no number, or it is an integer too large for a float). *)
Theorem raises_only_past_the_checks (u : upstream) (cid d : pyval)
    (drain tol thr : float) (e : exn) :
  check_discrepancy u cid d drain tol thr = Raise e ->
  exists a df,
    fetch_tickets u = inr a /\ tickets_frame a = inr df /\
    (to_datetime_column (series df "date") = None \/
     to_datetime d = None \/
     column_eq (series df "cauldron_id") cid = None \/
     exists date_obj ct,
       filter_tickets df cid d = Return (date_obj, ct) /\
       rows ct <> [] /\
       (column_sum (series ct "amount_collected") = None \/
        exists z,
          column_sum (series ct "amount_collected") = Some (ExactInt z) /\
          is_infinity (float_of_Z z) = true)).
Proof.
  unfold check_discrepancy.
  destruct (fetch_tickets u) as [e1|a]; [discriminate|].
  destruct (tickets_frame a) as [e2|df] eqn:Hf; [discriminate|].
  intros H. exists a, df. split; [reflexivity|]. split; [exact Hf|].
  destruct (filter_tickets df cid d) as [[date_obj ct]|x] eqn:Hc.
  - cbn [bind fst snd] in H. right. right. right. exists date_obj, ct.
    split; [reflexivity|].
    unfold compare_volumes in H.
    rewrite (filtered_empty a df ct cid d date_obj Hf Hc) in H.
    destruct (rows ct); [discriminate|]. split; [discriminate|].
    destruct (column_sum (series ct "amount_collected")) as [sum|];
      [|now left].
    right. cbn [or_raise bind] in H. destruct sum as [z|f]; [|discriminate].
    exists z. split; [reflexivity|]. cbn [number_float] in H.
    now destruct (is_infinity (float_of_Z z)).
  - unfold filter_tickets in Hc.
    destruct (to_datetime_column (series df "date")); [|now left].
    destruct (to_datetime d); [|right; now left].
    destruct (column_eq (series df "cauldron_id") cid); [|right; right; now left].
    discriminate.
Qed.

(** X10. A request that passes the field checks and whose numbers convert,
    but whose date pandas cannot read, makes the handler raise once the
    dataset is in order: the date is parsed outside every [try]. *)
Theorem unreadable_date_raises (body : option pyval) (u : upstream)
    (data cid d dv a : pyval) (tol thr drain : float) (df : DataFrame)
    (dates : list pdate) :
  validate body = Return (inr (data, cid, d, dv)) ->
  float_get data "tolerance" 0.05 = Return tol ->
  float_get data "threshold" 5.0 = Return thr ->
  py_float dv = Return drain ->
  fetch_tickets u = inr a ->
  tickets_frame a = inr df ->
  to_datetime_column (series df "date") = Some dates ->
  to_datetime d = None ->
  detect_daily_discrepancy body u = Raise LibraryError.
Proof.
  intros Hv Htol Hthr Hdrain Hfetch Hframe Hdates Hdate.
  unfold detect_daily_discrepancy. rewrite Hv. cbn [bind].
  rewrite Htol, Hthr, Hdrain. cbn [bind].
  unfold check_discrepancy. rewrite Hfetch, Hframe.
  unfold filter_tickets. now rewrite Hdates, Hdate.
Qed.

(** ** What a result carries *)

(** X11. A result carries the request's cauldron id and drain volume
    unchanged, and as its date the ISO form of the parsed request date. *)
Theorem result_echoes_request (u : upstream) (cid d : pyval)
    (drain tol thr : float) (r : ReconciliationResult) :
  check_discrepancy u cid d drain tol thr = Return (Result r) ->
  cauldron_id r = cid /\
  drain_volume r = drain /\
  exists date_obj, to_datetime d = Some date_obj /\ date r = str_date date_obj.
Proof.
  intros H. apply check_discrepancy_result in H.
  destruct H as (a & df & date_obj & ct & _ & _ & Hc & H).
  assert (to_datetime d = Some date_obj) as Hd.
  { unfold filter_tickets in Hc.
    destruct (to_datetime_column (series df "date")); [|discriminate].
    destruct (to_datetime d); [|discriminate].
    destruct (column_eq (series df "cauldron_id") cid); [|discriminate].
    cbn [or_raise bind] in Hc. now injection Hc as -> _. }
  apply compare_volumes_result in H.
  destruct H as [[_ ->]|[_ (sum & total & _ & _ & ->)]];
    cbn [cauldron_id drain_volume date]; repeat split; now exists date_obj.
Qed.

(** X12. The ticket count is absent exactly in the [MISSING_TICKET] result;
    when present it is at least 1 and at most the number of rows
    fetched. *)
Theorem num_tickets_bounds (u : upstream) (cid d : pyval)
    (drain tol thr : float) (r : ReconciliationResult) :
  check_discrepancy u cid d drain tol thr = Return (Result r) ->
  (num_tickets r = None <-> status r = MISSING_TICKET) /\
  exists a df,
    fetch_tickets u = inr a /\ tickets_frame a = inr df /\
    forall n, num_tickets r = Some n ->
              (1 <= n)%nat /\ (n <= List.length (rows df))%nat.
Proof.
  intros H. apply check_discrepancy_result in H.
  destruct H as (a & df & date_obj & ct & Hfetch & Hframe & Hc & H).
  pose proof (filtered_empty a df ct cid d date_obj Hframe Hc) as He.
  assert (List.length (rows ct) <= List.length (rows df))%nat as Hlen.
  { unfold filter_tickets in Hc.
    destruct (to_datetime_column (series df "date")); [|discriminate].
    destruct (to_datetime d); [|discriminate].
    destruct (column_eq (series df "cauldron_id") cid); [|discriminate].
    cbn [or_raise bind] in Hc. injection Hc as _ <-.
    apply boolean_index_length. }
  apply compare_volumes_result in H.
  destruct H as [[_ ->]|[Hne (sum & total & _ & _ & ->)]];
    cbn [num_tickets status].
  - split; [tauto|]. exists a, df. repeat split; try assumption; discriminate.
  - split.
    + split; [discriminate|]. unfold classify_status.
      destruct (_ || _); [discriminate|].
      destruct (exceeds sum drain); discriminate.
    + exists a, df. split; [assumption|]. split; [assumption|].
      intros n Hn. injection Hn as <-. unfold shape0.
      rewrite He in Hne. destruct (rows ct); [discriminate|].
      cbn [List.length] in *. lia.
Qed.

(** X13. The rows compared are exactly the fetched rows that match both
    the cauldron and the date: a row is kept when, and only when, it
    stands at a position where the id comparison and the date comparison
    both hold. *)
Theorem filter_keeps_matching_rows (df ct : DataFrame) (cid d : pyval)
    (date_obj : pdate) :
  filter_tickets df cid d = Return (date_obj, ct) ->
  exists dates id_mask,
    to_datetime_column (series df "date") = Some dates /\
    column_eq (series df "cauldron_id") cid = Some id_mask /\
    forall row,
      In row (rows ct) <->
      exists i,
        nth_error (rows df) i = Some row /\
        nth i id_mask false = true /\
        date_eqb (nth i dates NaT) date_obj = true.
Proof.
  unfold filter_tickets.
  destruct (to_datetime_column (series df "date")) as [dates|]; [|discriminate].
  destruct (to_datetime d) as [dt|]; [|discriminate].
  destruct (column_eq (series df "cauldron_id") cid) as [id_mask|];
    [|discriminate].
  cbn [or_raise bind]. intros H. injection H as -> <-.
  exists dates, id_mask. split; [reflexivity|]. split; [reflexivity|].
  intros row. cbn [rows]. rewrite boolean_index_In.
  split; intros [i [H1 H2]]; exists i; split; try assumption.
  - rewrite nth_mask_and, nth_date_mask in H2. now apply andb_true_iff in H2.
  - rewrite nth_mask_and, nth_date_mask. now apply andb_true_iff.
Qed.

(** X14. Tolerance and threshold decide the status and nothing else: with
    other values the same request gives a result equal in every other
    field, and the [MISSING_TICKET] result does not change at all. *)
Theorem tolerance_only_moves_status (u : upstream) (cid d : pyval)
    (drain tol thr tol' thr' : float) (r : ReconciliationResult) :
  check_discrepancy u cid d drain tol thr = Return (Result r) ->
  exists r',
    check_discrepancy u cid d drain tol' thr' = Return (Result r') /\
    cauldron_id r' = cauldron_id r /\ date r' = date r /\
    drain_volume r' = drain_volume r /\
    total_ticket_volume r' = total_ticket_volume r /\
    difference r' = difference r /\ relative_diff r' = relative_diff r /\
    num_tickets r' = num_tickets r /\
    (status r = MISSING_TICKET -> r' = r).
Proof.
  intros H. apply check_discrepancy_result in H.
  destruct H as (a & df & date_obj & ct & Hfetch & Hframe & Hc & H).
  rewrite (check_discrepancy_stages u cid d drain tol' thr' a df ct date_obj)
    by assumption.
  unfold compare_volumes in *. destruct (empty ct).
  - injection H as <-. eexists. split; [reflexivity|]. now repeat split.
  - destruct (column_sum (series ct "amount_collected")) as [sum|];
      [|discriminate].
    cbn [or_raise bind] in *.
    destruct (number_float sum) as [total|]; [|discriminate].
    cbn [bind] in *. injection H as <-.
    eexists. split; [reflexivity|]. cbn. repeat split.
    unfold classify_status. destruct (_ || _); [discriminate|].
    destruct (exceeds sum drain); discriminate.
Qed.

(** ** Response shapes, beyond the three plain ones *)

(** X15. The body's members are tried in a fixed order, whatever else the
    mapping holds: a ["tickets"] list wins; without a ["tickets"] member a
    ["data"] list wins; without either, the first list-valued member in
    the body's order is taken. Each is evaluated as the bare list. *)
Theorem member_precedence (l : list pyval) (cid d : pyval)
    (drain tol thr : float) :
  (forall m,
     lookup "tickets" m = Some (PyList l) ->
     check_discrepancy (Fetched (PyDict m)) cid d drain tol thr
     = check_discrepancy (Fetched (PyList l)) cid d drain tol thr)
  /\
  (forall m,
     lookup "tickets" m = None -> lookup "data" m = Some (PyList l) ->
     check_discrepancy (Fetched (PyDict m)) cid d drain tol thr
     = check_discrepancy (Fetched (PyList l)) cid d drain tol thr)
  /\
  (forall pre k post,
     lookup "tickets" (pre ++ (k, PyList l) :: post) = None ->
     lookup "data" (pre ++ (k, PyList l) :: post) = None ->
     has_list_value pre = false ->
     check_discrepancy (Fetched (PyDict (pre ++ (k, PyList l) :: post)))
       cid d drain tol thr
     = check_discrepancy (Fetched (PyList l)) cid d drain tol thr).
Proof.
  unfold check_discrepancy. repeat split.
  - intros m H. now rewrite (fetch_tickets_member m (PyList l)) by now left.
  - intros m H1 H2.
    now rewrite (fetch_tickets_member m (PyList l)) by now right.
  - intros pre k post H1 H2 H3. unfold fetch_tickets, all_tickets_of.
    now rewrite H1, H2, first_list_value_first.
Qed.

(** X16. All failure payloads are answered with status 200, so only the
    message tells them apart, and it does: two failures with the same
    message are of the same kind, and a fetch or parse failure has the
    same cause. *)
Theorem messages_tell_failures_apart (e e' : EvaluationError) :
  error_message e = error_message e' ->
  same_kind e e' = true /\
  (forall cause, e = FetchFailed cause \/ e = ParseFailed cause -> e' = e).
Proof.
  intros H.
  destruct e, e'; cbn in H; try discriminate H; split; try reflexivity;
    intros c [Hc|Hc]; try discriminate Hc; congruence.
Qed.

End EvaluatorProperties.

(** ** More binary64 arithmetic *)

(** The order of the specification floats is transitive. *)
Lemma SFleb_trans (a b c : spec_float) :
  SFleb a b = true -> SFleb b c = true -> SFleb a c = true.
Proof.
  unfold SFleb, SFcompare.
  destruct a as [s1|s1| |s1 m1 e1], b as [s2|s2| |s2 m2 e2],
    c as [s3|s3| |s3 m3 e3];
    try (intros; discriminate); try reflexivity;
    try (destruct s1, s2, s3; intros; (discriminate || reflexivity)).
  change PosDef.Pos.compare_cont with Pos.compare_cont.
  change (Pos.compare_cont Eq) with Pos.compare.
  destruct s1, s2, s3; try (intros; (discriminate || reflexivity));
    destruct (Z.compare_spec e1 e2), (Z.compare_spec e2 e3),
      (Z.compare_spec e1 e3); subst; try lia;
    try (intros; (discriminate || reflexivity));
    destruct (Pos.compare_spec m1 m2), (Pos.compare_spec m2 m3),
      (Pos.compare_spec m1 m3); subst; cbn [CompOpp]; try lia;
    intros; (discriminate || reflexivity).
Qed.

Lemma leb_trans (x y z : float) :
  (x <=? y)%float = true -> (y <=? z)%float = true -> (x <=? z)%float = true.
Proof. rewrite !leb_spec. apply SFleb_trans. Qed.

(** Swapping the arguments of a comparison reverses its answer. *)
Lemma SFcompare_swap (a b : spec_float) :
  SFcompare b a = option_map CompOpp (SFcompare a b).
Proof.
  unfold SFcompare.
  destruct a as [s1|s1| |s1 m1 e1], b as [s2|s2| |s2 m2 e2];
    try reflexivity; try (destruct s1; reflexivity);
    try (destruct s2; reflexivity);
    try (destruct s1, s2; reflexivity).
  change PosDef.Pos.compare_cont with Pos.compare_cont.
  change (Pos.compare_cont Eq) with Pos.compare.
  cbn [option_map].
  rewrite (Z.compare_antisym e1 e2), (Pos.compare_antisym m1 m2).
  destruct s1, s2; try reflexivity;
    destruct (e1 ?= e2)%Z; cbn [CompOpp]; try reflexivity;
    destruct (m1 ?= m2)%positive; reflexivity.
Qed.

(** [abs(x - x)] is 0.0 for a finite [x]. *)
Lemma abs_sub_same (x : float) :
  is_finite x = true -> abs (x - x)%float = 0%float.
Proof.
  unfold is_finite, is_nan, is_infinity. intros H.
  apply negb_true_iff, orb_false_iff in H. destruct H as [Hn Hi].
  apply negb_false_iff in Hn. revert Hn Hi.
  rewrite !eqb_spec, abs_spec. intros Hn Hi.
  apply Prim2SF_inj. rewrite abs_spec, sub_spec.
  change (Prim2SF 0) with (S754_zero false).
  change (Prim2SF infinity) with (S754_infinity false) in Hi.
  destruct (Prim2SF x) as [s|s| |s m e]; try discriminate.
  - now destruct s.
  - unfold SF64sub, SFsub. rewrite Z.sub_diag. reflexivity.
Qed.

Lemma SFcompare_None (a b : spec_float) :
  SFcompare a b = None -> SFeqb a a = false \/ SFeqb b b = false.
Proof.
  unfold SFeqb, SFcompare.
  destruct a as [s1|s1| |s1 m1 e1], b as [s2|s2| |s2 m2 e2];
    intros H; try discriminate H; auto.
Qed.

(** Of two numbers, one is at most the other. *)
Lemma SFleb_total (a b : spec_float) :
  SFeqb a a = true -> SFeqb b b = true ->
  SFltb a b = false -> SFleb b a = true.
Proof.
  intros Ha Hb. unfold SFltb, SFleb. rewrite (SFcompare_swap a b).
  destruct (SFcompare a b) as [[| |]|] eqn:C; cbn [option_map CompOpp];
    try reflexivity; try discriminate.
  apply SFcompare_None in C. destruct C; congruence.
Qed.

(** What is not below a positive number is no zero, and is positive when
    it is a number. *)
Lemma SFpos_of_not_below (a : spec_float) (m0 : positive) (e0 : Z) :
  SFltb a (S754_finite false m0 e0) = false ->
  SFeqb a (S754_zero false) = false /\ SFpos a = true.
Proof.
  unfold SFltb, SFeqb, SFcompare.
  destruct a as [s|s| |s m e]; cbn [SFpos]; try discriminate;
    try (intros _; split; reflexivity);
    destruct s; try discriminate; intros _; split; reflexivity.
Qed.

Lemma py_max_floor (d : float) :
  (py_max d 1e-6 =? 0)%float = false /\
  (is_nan d = false -> (1e-6 <=? py_max d 1e-6)%float = true).
Proof.
  unfold py_max. destruct (d <? 1e-6)%float eqn:Hlt.
  - split; [reflexivity|intros _; reflexivity].
  - revert Hlt. unfold is_nan. rewrite ltb_spec, !eqb_spec, leb_spec.
    change (Prim2SF 1e-6) with (S754_finite false 4722366482869645 (-72)).
    change (Prim2SF 0) with (S754_zero false).
    intros Hlt. split.
    + now apply (SFpos_of_not_below _ _ _ Hlt).
    + intros Hn. apply negb_false_iff in Hn.
      apply SFleb_total; [exact Hn|vm_compute; reflexivity|exact Hlt].
Qed.

Lemma py_max_pos (d : float) : SFpos (Prim2SF (py_max d 1e-6)) = true.
Proof.
  unfold py_max. destruct (d <? 1e-6)%float eqn:Hlt; [reflexivity|].
  revert Hlt. rewrite ltb_spec.
  change (Prim2SF 1e-6) with (S754_finite false 4722366482869645 (-72)).
  intros Hlt. now apply (SFpos_of_not_below _ _ _ Hlt).
Qed.

Lemma binary_round_aux_nonneg (m e : Z) (l : location) :
  SFnonneg (binary_round_aux prec emax false m e l) = true.
Proof.
  unfold binary_round_aux.
  destruct (shr_fexp prec emax m e l) as [mrs e'].
  destruct (shr_fexp prec emax _ e' loc_Exact) as [mrs' e''].
  destruct (shr_m mrs'); try reflexivity.
  now destruct (e'' <=? emax - prec)%Z.
Qed.

Lemma SFdiv_nonneg (a b : spec_float) :
  SFnonneg a = true -> SFpos b = true ->
  SFnonneg (SFdiv prec emax a b) = true.
Proof.
  destruct a as [s1|s1| |s1 m1 e1], b as [s2|s2| |s2 m2 e2];
    cbn [SFnonneg SFpos SFdiv]; intros Ha Hb;
    try discriminate; try reflexivity;
    try apply negb_true_iff in Ha; try apply negb_true_iff in Hb;
    subst; try reflexivity.
  destruct (SFdiv_core_binary prec emax (Z.pos m1) e1 (Z.pos m2) e2)
    as [[mz ez] lz].
  apply binary_round_aux_nonneg.
Qed.

Lemma SFleb_nonneg_negative (a t : spec_float) :
  SFnonneg a = true -> SFltb t (S754_zero false) = true ->
  SFleb a t = false.
Proof.
  unfold SFleb, SFltb, SFcompare.
  destruct a as [s1|s1| |s1 m1 e1], t as [s2|s2| |s2 m2 e2];
    cbn [SFnonneg]; intros Ha Ht; try discriminate; try reflexivity;
    try apply negb_true_iff in Ha; subst; destruct s2;
    try discriminate; reflexivity.
Qed.

Lemma SFltb_negative_nonneg (d t : spec_float) :
  SFltb d (S754_zero false) = true -> SFleb (S754_zero false) t = true ->
  SFltb d t = true.
Proof.
  unfold SFleb, SFltb, SFcompare.
  destruct d as [s1|s1| |s1 m1 e1], t as [s2|s2| |s2 m2 e2];
    intros Hd Ht; try discriminate; try reflexivity;
    destruct s1, s2; try discriminate; reflexivity.
Qed.

Lemma ltb_negative_nonneg (d t : float) :
  (d <? 0)%float = true -> (0 <=? t)%float = true -> (d <? t)%float = true.
Proof.
  rewrite !ltb_spec, leb_spec. change (Prim2SF 0) with (S754_zero false).
  apply SFltb_negative_nonneg.
Qed.

(** Neither [abs(x)] nor [abs(x) / max(d, 1e-6)] is at most a negative
    limit. *)
Lemma gap_above_negative (x d t : float) :
  (t <? 0)%float = true ->
  (abs x <=? t)%float = false /\
  (abs x / py_max d 1e-6 <=? t)%float = false.
Proof.
  rewrite ltb_spec, !leb_spec, div_spec, abs_spec.
  change (Prim2SF 0) with (S754_zero false). intros Ht.
  assert (SFnonneg (SFabs (Prim2SF x)) = true) as Ha
    by now destruct (Prim2SF x).
  split; apply SFleb_nonneg_negative; try assumption.
  apply SFdiv_nonneg; [assumption|apply py_max_pos].
Qed.

(** At least 1e-6 is not below 1e-6. *)
Lemma SFltb_of_leb (a b : spec_float) :
  SFleb a b = true -> SFltb b a = false.
Proof.
  unfold SFleb, SFltb. rewrite (SFcompare_swap a b).
  destruct (SFcompare a b) as [[| |]|]; cbn [option_map CompOpp];
    try discriminate; reflexivity.
Qed.

Lemma is_nan_spec (x : float) :
  is_nan x = true -> Prim2SF x = S754_nan.
Proof.
  unfold is_nan. rewrite eqb_spec. intros H. apply negb_true_iff in H.
  revert H. unfold SFeqb, SFcompare.
  destruct (Prim2SF x) as [s|s| |s m e]; try reflexivity;
    try discriminate; try (destruct s; discriminate).
  rewrite Z.compare_refl.
  change PosDef.Pos.compare_cont with Pos.compare_cont.
  rewrite Pos.compare_cont_refl. destruct s; discriminate.
Qed.

(** With a drain volume that is no number, the gap and its quotient are
    no numbers either, and every comparison with them fails. *)
Lemma nan_drain_gap (total drain t : float) :
  is_nan drain = true ->
  Prim2SF (abs (total - drain)) = S754_nan /\
  Prim2SF (abs (total - drain) / py_max drain 1e-6) = S754_nan /\
  (drain <? t)%float = false.
Proof.
  intros Hn. apply is_nan_spec in Hn.
  assert (Prim2SF (abs (total - drain)) = S754_nan) as Hgap.
  { rewrite abs_spec, sub_spec, Hn. now destruct (Prim2SF total). }
  assert (forall y, (drain <? y)%float = false) as Hlt.
  { intros y. now rewrite ltb_spec, Hn. }
  repeat split; [exact Hgap| |apply Hlt].
  unfold py_max. rewrite Hlt. now rewrite div_spec, Hgap.
Qed.

(** A sum that is not negative exceeds a negative drain volume, however
    the two are compared. *)
Lemma exceeds_negative (sum : number) (drain : float) :
  (drain <? 0)%float = true -> number_nonneg sum = true ->
  exceeds sum drain = true.
Proof.
  intros Hd Hs. destruct sum as [z|f]; cbn [exceeds number_nonneg] in *.
  - apply Z.leb_le in Hs. revert Hd. rewrite ltb_spec.
    change (Prim2SF 0) with (S754_zero false).
    unfold Z_gt_float, SFltb, SFcompare.
    destruct (Prim2SF drain) as [s|s| |s m e]; try discriminate;
      destruct s; try discriminate; intros _; [reflexivity|].
    cbn [cond_Zopp].
    destruct (0 <=? e)%Z eqn:He; apply Z.ltb_lt.
    + apply Z.leb_le in He.
      pose proof (Z.pow_pos_nonneg 2 e). nia.
    + apply Z.leb_gt in He.
      pose proof (Z.pow_pos_nonneg 2 (- e)). nia.
  - now apply ltb_negative_nonneg.
Qed.

(** Nothing exceeds a drain volume that is no number. *)
Lemma exceeds_nan (sum : number) (drain : float) :
  is_nan drain = true -> exceeds sum drain = false.
Proof.
  intros Hn. destruct sum as [z|f]; cbn [exceeds].
  - unfold Z_gt_float. now rewrite (is_nan_spec drain Hn).
  - rewrite ltb_spec. now rewrite (is_nan_spec drain Hn).
Qed.

Section ComparisonProperties.

Context {L : Runtime}.

(** ** The comparison under other limits and volumes *)

(** X17. Loosening the limits never turns an accepted reading into a
    discrepancy: a request that is [OK] gives the very same result under
    any tolerance and threshold at least as large. *)
Theorem loosening_keeps_ok (u : upstream) (cid d : pyval)
    (drain tol thr tol' thr' : float) (r : ReconciliationResult) :
  check_discrepancy u cid d drain tol thr = Return (Result r) ->
  status r = OK ->
  (tol <=? tol')%float = true ->
  (thr <=? thr')%float = true ->
  check_discrepancy u cid d drain tol' thr' = Return (Result r).
Proof.
  intros H Hok Htol Hthr. apply check_discrepancy_result in H.
  destruct H as (a & df & date_obj & ct & Hfetch & Hframe & Hc & H).
  rewrite (check_discrepancy_stages u cid d drain tol' thr' a df ct date_obj)
    by assumption.
  unfold compare_volumes in *. destruct (empty ct); [exact H|].
  destruct (column_sum (series ct "amount_collected")) as [sum|];
    [|discriminate].
  cbn [or_raise bind] in *.
  destruct (number_float sum) as [total|]; [|discriminate].
  cbn [bind] in *. injection H as <-. cbn [status] in Hok.
  do 2 f_equal. unfold classify_status in *.
  destruct ((abs (total - drain) / py_max drain 1e-6 <=? tol)%float) eqn:E1.
  - now rewrite (leb_trans _ _ _ E1 Htol).
  - destruct ((abs (total - drain) <=? thr)%float) eqn:E2.
    + rewrite (leb_trans _ _ _ E2 Hthr). now rewrite orb_true_r.
    + cbn [orb] in Hok. destruct (exceeds sum drain); discriminate.
Qed.

(** X18. The divisor of the relative difference, [max(drain_volume, 1e-6)],
    is never zero, and it is at least 1e-6 whenever the drain volume is a
    number: the division cannot divide by zero. *)
Theorem divisor_never_zero (drain : float) :
  (py_max drain 1e-6 =? 0)%float = false /\
  (is_nan drain = false -> (1e-6 <=? py_max drain 1e-6)%float = true).
Proof. apply py_max_floor. Qed.

(** X19. When the matching tickets sum to the drain volume exactly, and
    that is a finite number, the difference is 0.0 and the status is [OK]
    for every threshold that is not negative, whatever the tolerance. *)
Theorem exact_agreement_ok (u : upstream) (cid d : pyval)
    (drain tol thr : float) (r : ReconciliationResult) (n : nat) :
  check_discrepancy u cid d drain tol thr = Return (Result r) ->
  num_tickets r = Some n ->
  total_ticket_volume r = drain ->
  is_finite drain = true ->
  (0 <=? thr)%float = true ->
  status r = OK /\ difference r = 0%float.
Proof.
  intros H Hn Htotal Hfin Hthr. apply check_discrepancy_result in H.
  destruct H as (a & df & date_obj & ct & _ & _ & _ & H).
  apply compare_volumes_result in H.
  destruct H as [[_ ->]|[_ (sum & total & _ & _ & ->)]]; [discriminate|].
  cbn [total_ticket_volume] in Htotal. subst total.
  cbn [status difference]. unfold classify_status.
  rewrite (abs_sub_same drain Hfin), Hthr. now rewrite orb_true_r.
Qed.

(** X20. With a negative tolerance and a negative threshold no reading is
    ever [OK]: the difference and the relative difference are never
    negative. *)
Theorem negative_limits_never_ok (u : upstream) (cid d : pyval)
    (drain tol thr : float) (r : ReconciliationResult) :
  check_discrepancy u cid d drain tol thr = Return (Result r) ->
  (tol <? 0)%float = true ->
  (thr <? 0)%float = true ->
  status r = OVER_REPORTED \/ status r = UNDER_REPORTED \/
  status r = MISSING_TICKET.
Proof.
  intros H Htol Hthr. apply check_discrepancy_result in H.
  destruct H as (a & df & date_obj & ct & _ & _ & _ & H).
  apply compare_volumes_result in H.
  destruct H as [[_ ->]|[_ (sum & total & _ & _ & ->)]]; cbn [status]; [tauto|].
  unfold classify_status.
  rewrite (proj2 (gap_above_negative (total - drain) drain tol Htol)).
  rewrite (proj1 (gap_above_negative (total - drain) drain thr Hthr)).
  cbn [orb]. destruct (exceeds sum drain); tauto.
Qed.

(** X21. With a negative drain volume and a ticket sum that is not
    negative, the status is never [UNDER_REPORTED]: it is [OK] when a
    limit admits the gap, and [OVER_REPORTED] otherwise. *)
Theorem negative_drain_never_under (u : upstream) (cid d : pyval)
    (drain tol thr : float) (a : pyval) (df ct : DataFrame)
    (date_obj : pdate) (sum : number) (r : ReconciliationResult) :
  fetch_tickets u = inr a ->
  tickets_frame a = inr df ->
  filter_tickets df cid d = Return (date_obj, ct) ->
  column_sum (series ct "amount_collected") = Some sum ->
  number_nonneg sum = true ->
  (drain <? 0)%float = true ->
  check_discrepancy u cid d drain tol thr = Return (Result r) ->
  status r = OK \/ status r = OVER_REPORTED \/ status r = MISSING_TICKET.
Proof.
  intros Hfetch Hframe Hfilter Hsum Hnonneg Hdrain H.
  rewrite (check_discrepancy_stages u cid d drain tol thr a df ct date_obj)
    in H by assumption.
  apply compare_volumes_result in H.
  destruct H as [[_ ->]|[_ (sum' & total & Hsum' & _ & ->)]];
    cbn [status]; [tauto|].
  rewrite Hsum in Hsum'. injection Hsum' as <-.
  unfold classify_status.
  rewrite (exceeds_negative sum drain Hdrain Hnonneg).
  destruct (_ || _); tauto.
Qed.

(** X22. With matching tickets the relative difference is
    [difference / drain_volume] for a drain volume of at least 1e-6, and
    [difference / 1e-6] for every drain volume below 1e-6, zero and the
    negative ones included. *)
Theorem relative_diff_divisor (u : upstream) (cid d : pyval)
    (drain tol thr : float) (r : ReconciliationResult) (n : nat) :
  check_discrepancy u cid d drain tol thr = Return (Result r) ->
  num_tickets r = Some n ->
  ((1e-6 <=? drain)%float = true ->
   relative_diff r = (difference r / drain)%float)
  /\
  ((drain <? 1e-6)%float = true ->
   relative_diff r = (difference r / 1e-6)%float).
Proof.
  intros H Hn. apply check_discrepancy_result in H.
  destruct H as (a & df & date_obj & ct & _ & _ & _ & H).
  apply compare_volumes_result in H.
  destruct H as [[_ ->]|[_ (sum & total & _ & _ & ->)]]; [discriminate|].
  cbn [relative_diff difference]. unfold py_max. split; intros Hd.
  - rewrite leb_spec in Hd. apply SFltb_of_leb in Hd.
    rewrite <- ltb_spec in Hd. now rewrite Hd.
  - now rewrite Hd.
Qed.

(** X23. A drain volume that is no number (NaN, which the JSON parser
    accepts) is not refused: with matching tickets the difference and the
    relative difference are NaN and the status is [UNDER_REPORTED],
    whatever the tickets, the tolerance and the threshold. *)
Theorem nan_drain_under_reported (u : upstream) (cid d : pyval)
    (drain tol thr : float) (r : ReconciliationResult) (n : nat) :
  check_discrepancy u cid d drain tol thr = Return (Result r) ->
  num_tickets r = Some n ->
  is_nan drain = true ->
  status r = UNDER_REPORTED /\
  is_nan (difference r) = true /\ is_nan (relative_diff r) = true.
Proof.
  intros H Hn Hnan. apply check_discrepancy_result in H.
  destruct H as (a & df & date_obj & ct & _ & _ & _ & H).
  apply compare_volumes_result in H.
  destruct H as [[_ ->]|[_ (sum & total & _ & _ & ->)]]; [discriminate|].
  cbn [status difference relative_diff].
  destruct (nan_drain_gap total drain total Hnan) as (Hgap & Hrel & _).
  unfold classify_status, is_nan.
  rewrite (exceeds_nan sum drain Hnan).
  rewrite !leb_spec, !eqb_spec, Hgap, Hrel. repeat split.
Qed.

End ComparisonProperties.

(* ================================================================== *)
(** * The further properties on the reference runtime *)

Lemma list_body_raises :
  detect_daily_discrepancy (L := reference) (Some body_list)
    (Fetched (PyList example_tickets))
  = Raise AttributeError.
Proof.
  apply (proj1 (wrong_type_body_raises (L := reference)
                  (Fetched (PyList example_tickets))));
    reflexivity.
Defined.

Lemma empty_object_rejected :
  detect_daily_discrepancy (L := reference) (Some body_empty)
    (Fetched (PyList example_tickets))
  = Return (ErrorJson "Missing 'cauldron_data' field", 400%Z).
Proof.
  apply (proj2 (proj2 (missing_cauldron_data_rejected (L := reference)
                         (Fetched (PyList example_tickets))))
           [] (PyDict []));
    reflexivity.
Defined.

Lemma zero_cauldron_id_rejected :
  detect_daily_discrepancy (L := reference) (Some body_zero_id)
    (Fetched (PyList example_tickets))
  = Return (ErrorJson "Missing required cauldron fields", 400%Z).
Proof.
  apply (falsy_identifier_rejected (L := reference)
           [("cauldron_data",
             PyDict [("cauldron_id", PyInt 0);
                     ("date_time", PyStr "2025-11-01");
                     ("drain_volume", PyInt 100)])]
           [("cauldron_id", PyInt 0); ("date_time", PyStr "2025-11-01");
            ("drain_volume", PyInt 100)]
           (PyInt 0) (PyStr "2025-11-01"));
    [reflexivity|discriminate|reflexivity|reflexivity|reflexivity].
Defined.

Lemma plain_body_guarantees :
  Some body_plain = Some body_plain /\
  exists m cd,
    body_plain = PyDict m /\
    lookup "cauldron_data" m = Some (PyDict cd) /\ cd <> [] /\
    lookup "cauldron_id" cd = Some (PyStr "c1") /\
    truthy (PyStr "c1") = true /\
    lookup "date_time" cd = Some (PyStr "2025-11-01") /\
    truthy (PyStr "2025-11-01") = true /\
    lookup "drain_volume" cd = Some (PyInt 100) /\
    is_None (PyInt 100) = false.
Proof.
  apply (validate_guarantees (Some body_plain) body_plain).
  reflexivity.
Defined.

Lemma plain_body_defaults :
  detect_daily_discrepancy (L := reference) (Some body_plain)
    (Fetched (PyList example_tickets))
  = detect_daily_discrepancy (L := reference)
      (Some (PyDict ([("cauldron_data", cauldron_data_of (PyInt 100))]
                     ++ [("tolerance", PyFloat 0.05);
                         ("threshold", PyFloat 5.0)])))
      (Fetched (PyList example_tickets)).
Proof.
  apply (default_tolerance_threshold (L := reference)
           [("cauldron_data", cauldron_data_of (PyInt 100))]);
    reflexivity.
Defined.

Lemma fetch_failure_payload :
  check_discrepancy (L := reference) (FetchRaised "timed out")
    (PyStr "c1") (PyStr "yesterday") 100 0.05 5.0
  = Return (Error (FetchFailed "timed out")).
Proof.
  apply (proj2 (error_payload_iff_dataset_error (L := reference)
                  (FetchRaised "timed out") (PyStr "c1") (PyStr "yesterday")
                  100 0.05 5.0 (FetchFailed "timed out"))).
  left. reflexivity.
Defined.

Lemma unreadable_date_escapes :
  exists a df,
    fetch_tickets (Fetched (PyList example_tickets)) = inr a /\
    tickets_frame (L := reference) a = inr df /\
    (@to_datetime_column reference (series df "date") = None \/
     @to_datetime reference (PyStr "yesterday") = None \/
     @column_eq reference (series df "cauldron_id") (PyStr "c1") = None \/
     exists date_obj ct,
       filter_tickets (L := reference) df (PyStr "c1") (PyStr "yesterday")
       = Return (date_obj, ct) /\
       rows ct <> [] /\
       (@column_sum reference (series ct "amount_collected") = None \/
        exists z,
          @column_sum reference (series ct "amount_collected")
          = Some (ExactInt z) /\
          is_infinity (float_of_Z z) = true)).
Proof.
  apply (raises_only_past_the_checks (L := reference)
           (Fetched (PyList example_tickets)) (PyStr "c1") (PyStr "yesterday")
           100 0.05 5.0 LibraryError).
  reflexivity.
Defined.

Lemma unreadable_date_request :
  detect_daily_discrepancy (L := reference) (Some body_bad_date)
    (Fetched (PyList example_tickets))
  = Raise LibraryError.
Proof.
  apply (unreadable_date_raises (L := reference) (Some body_bad_date)
           (Fetched (PyList example_tickets)) body_bad_date
           (PyStr "c1") (PyStr "yesterday") (PyInt 100)
           (PyList example_tickets) 0.05 5.0 100 example_frame
           [Date 2025 11 1; Date 2025 11 1]);
    reflexivity.
Defined.

Lemma example_echoes_request :
  cauldron_id example_result = PyStr "c1" /\
  drain_volume example_result = 100%float /\
  exists date_obj,
    @to_datetime reference (PyStr "2025-11-01") = Some date_obj /\
    date example_result = str_date date_obj.
Proof.
  apply (result_echoes_request (L := reference)
           (Fetched (PyList example_tickets)) (PyStr "c1") (PyStr "2025-11-01")
           100 0.05 5.0 example_result).
  reflexivity.
Defined.

Lemma example_ticket_count :
  (num_tickets example_result = None <->
   status example_result = MISSING_TICKET) /\
  exists a df,
    fetch_tickets (Fetched (PyList example_tickets)) = inr a /\
    tickets_frame (L := reference) a = inr df /\
    forall n, num_tickets example_result = Some n ->
              (1 <= n)%nat /\ (n <= List.length (rows df))%nat.
Proof.
  apply (num_tickets_bounds (L := reference)
           (Fetched (PyList example_tickets)) (PyStr "c1") (PyStr "2025-11-01")
           100 0.05 5.0 example_result).
  reflexivity.
Defined.

Lemma example_filter :
  exists dates id_mask,
    @to_datetime_column reference (series example_frame "date") = Some dates /\
    @column_eq reference (series example_frame "cauldron_id") (PyStr "c1")
    = Some id_mask /\
    forall row,
      In row (rows example_frame) <->
      exists i,
        nth_error (rows example_frame) i = Some row /\
        nth i id_mask false = true /\
        date_eqb (nth i dates NaT) (Date 2025 11 1) = true.
Proof.
  apply (filter_keeps_matching_rows (L := reference) example_frame
           example_frame (PyStr "c1") (PyStr "2025-11-01") (Date 2025 11 1)).
  reflexivity.
Defined.

Lemma example_under_other_limits :
  exists r',
    check_discrepancy (L := reference) (Fetched (PyList example_tickets))
      (PyStr "c1") (PyStr "2025-11-01") 100 0.001 0.5
    = Return (Result r') /\
    cauldron_id r' = cauldron_id example_result /\
    date r' = date example_result /\
    drain_volume r' = drain_volume example_result /\
    total_ticket_volume r' = total_ticket_volume example_result /\
    difference r' = difference example_result /\
    relative_diff r' = relative_diff example_result /\
    num_tickets r' = num_tickets example_result /\
    (status example_result = MISSING_TICKET -> r' = example_result).
Proof.
  apply (tolerance_only_moves_status (L := reference)
           (Fetched (PyList example_tickets)) (PyStr "c1") (PyStr "2025-11-01")
           100 0.05 5.0 0.001 0.5 example_result).
  reflexivity.
Defined.

Lemma tickets_member_among_others :
  check_discrepancy (L := reference)
    (Fetched (PyDict [("count", PyInt 2); ("data", PyList []);
                      ("tickets", PyList example_tickets)]))
    (PyStr "c1") (PyStr "2025-11-01") 100 0.05 5.0
  = check_discrepancy (L := reference) (Fetched (PyList example_tickets))
      (PyStr "c1") (PyStr "2025-11-01") 100 0.05 5.0.
Proof.
  apply (proj1 (member_precedence (L := reference) example_tickets
                  (PyStr "c1") (PyStr "2025-11-01") 100 0.05 5.0)).
  reflexivity.
Defined.

Lemma same_message_same_failure :
  same_kind (FetchFailed "timed out") (FetchFailed "timed out") = true /\
  (forall cause,
     FetchFailed "timed out" = FetchFailed cause \/
     FetchFailed "timed out" = ParseFailed cause ->
     FetchFailed "timed out" = FetchFailed "timed out").
Proof.
  apply (messages_tell_failures_apart (L := reference)
           (FetchFailed "timed out") (FetchFailed "timed out")).
  reflexivity.
Defined.

Lemma example_ok_under_looser_limits :
  check_discrepancy (L := reference) (Fetched (PyList example_tickets))
    (PyStr "c1") (PyStr "2025-11-01") 100 0.1 10
  = Return (Result example_result).
Proof.
  apply (loosening_keeps_ok (L := reference)
           (Fetched (PyList example_tickets)) (PyStr "c1") (PyStr "2025-11-01")
           100 0.05 5.0 0.1 10 example_result);
    reflexivity.
Defined.

Lemma exact_agreement_example :
  status (example_match 102 0 0 OK) = OK /\
  difference (example_match 102 0 0 OK) = 0%float.
Proof.
  apply (exact_agreement_ok (L := reference)
           (Fetched (PyList example_tickets)) (PyStr "c1") (PyStr "2025-11-01")
           102 0.05 0 (example_match 102 0 0 OK) 2);
    reflexivity.
Defined.

Lemma negative_limits_example :
  status (example_match 100 2 0.02 OVER_REPORTED) = OVER_REPORTED \/
  status (example_match 100 2 0.02 OVER_REPORTED) = UNDER_REPORTED \/
  status (example_match 100 2 0.02 OVER_REPORTED) = MISSING_TICKET.
Proof.
  apply (negative_limits_never_ok (L := reference)
           (Fetched (PyList example_tickets)) (PyStr "c1") (PyStr "2025-11-01")
           100 (-1) (-1) (example_match 100 2 0.02 OVER_REPORTED));
    reflexivity.
Defined.

Lemma negative_drain_example :
  status (example_match (-5) 107 (107 / 1e-6) OVER_REPORTED) = OK \/
  status (example_match (-5) 107 (107 / 1e-6) OVER_REPORTED) = OVER_REPORTED \/
  status (example_match (-5) 107 (107 / 1e-6) OVER_REPORTED) = MISSING_TICKET.
Proof.
  apply (negative_drain_never_under (L := reference)
           (Fetched (PyList example_tickets)) (PyStr "c1") (PyStr "2025-11-01")
           (-5) 0.05 5.0 (PyList example_tickets) example_frame example_frame
           (Date 2025 11 1) (Float64 102)
           (example_match (-5) 107 (107 / 1e-6) OVER_REPORTED));
    reflexivity.
Defined.

Lemma example_divisor :
  ((1e-6 <=? 100)%float = true ->
   relative_diff example_result = (difference example_result / 100)%float)
  /\
  ((100 <? 1e-6)%float = true ->
   relative_diff example_result = (difference example_result / 1e-6)%float).
Proof.
  apply (relative_diff_divisor (L := reference)
           (Fetched (PyList example_tickets)) (PyStr "c1") (PyStr "2025-11-01")
           100 0.05 5.0 example_result 2);
    reflexivity.
Defined.

Lemma nan_drain_example :
  status (example_match nan nan nan UNDER_REPORTED) = UNDER_REPORTED /\
  is_nan (difference (example_match nan nan nan UNDER_REPORTED)) = true /\
  is_nan (relative_diff (example_match nan nan nan UNDER_REPORTED)) = true.
Proof.
  apply (nan_drain_under_reported (L := reference)
           (Fetched (PyList example_tickets)) (PyStr "c1") (PyStr "2025-11-01")
           nan 0.05 5.0 (example_match nan nan nan UNDER_REPORTED) 2);
    reflexivity.
Defined.
